(** * The DataTable presentation-state coordinator of flipper-plugin

    A shallow embedding of
    [desktop/flipper-plugin/src/ui/datatable/useDataTableManager.tsx] (the
    hook that owns columns, sorting, search value and selection) and of the
    keyboard handler of [desktop/flipper-plugin/src/ui/datatable/DataTable.tsx].

    React state cells become fields of a record [Manager]; every callback of
    the hook is a computation in a small state-and-exception monad over that
    record, so that a [TypeError] raised inside an immer recipe or a state
    updater is visible in the result. *)

From stdpp Require Import base decidable option list gmap strings.
From Stdlib Require Import ZArith Ascii String Lia.

Local Open Scope Z_scope.
Local Open Scope string_scope.

(** ** JavaScript strings

    A string is held as the bytes of its UTF-8 encoding, as Rocq's string
    literals are; for well-formed text, one string occurs in another as a
    run of bytes exactly when it occurs as a run of UTF-16 code units, so
    [includes] is the language's.  [String.prototype.toLowerCase] and the
    global [String] conversion are built into the engine and are
    parameters of the development. *)
Module JS.

Inductive Error : Type :=
| TypeError (msg : string).

Inductive Result (A : Type) : Type :=
| Ok (a : A)
| Throw (e : Error).
Arguments Ok {A} a.
Arguments Throw {A} e.

(** [startsWith s t]: [t] is a prefix of [s]. *)
Fixpoint startsWith (s t : string) {struct t} : bool :=
  match t, s with
  | EmptyString, _ => true
  | String _ _, EmptyString => false
  | String b t', String a s' => Ascii.eqb a b && startsWith s' t'
  end.

(** [includes s t] is [s.includes(t)]: [t] occurs in [s] at some offset. *)
Fixpoint includes (s t : string) : bool :=
  startsWith s t ||
  match s with
  | EmptyString => false
  | String _ s' => includes s' t
  end.

(** The global [String(v)] conversion, for the values a row can hold
    ([String] itself is the constructor of Rocq's strings, hence the
    name). *)
Class Stringify (V : Type) : Type := toString : V -> string.

#[global] Instance Stringify_string : Stringify string := fun s => s.

(** [String.prototype.toLowerCase], the engine's Unicode lowercasing. *)
Class Lowercase : Type := toLowerCase : string -> string.

End JS.
Import JS.

(** ** Columns and sorting (DataTable.tsx, useDataTableManager.tsx) *)

Inductive Width : Type :=
| Pixels (n : Z)
| Percentage (p : string).

Inductive Align : Type := AlignLeft | AlignRight | AlignCenter.

(** [DataTableColumn]; an optional field is [None] when absent
    ([undefined]).  The [onRender] callback only produces cell content and is
    left out. *)
Record DataTableColumn : Type := mkColumn {
  key : string;
  title : option string;
  width : option Width;
  wrap : option bool;
  align : option Align;
  visible : option bool;
}.

Inductive Direction : Type := up | down.

Record Sorting : Type := mkSorting {
  sorting_key : string;
  direction : Direction;
}.

#[global] Instance Direction_eq_dec : EqDecision Direction.
Proof. solve_decision. Defined.

Definition set_width (w : option Width) (c : DataTableColumn) : DataTableColumn :=
  {| key := key c; title := title c; width := w; wrap := wrap c;
     align := align c; visible := visible c |}.

Definition set_visible (v : option bool) (c : DataTableColumn) : DataTableColumn :=
  {| key := key c; title := title c; width := width c; wrap := wrap c;
     align := align c; visible := v |}.

(** JavaScript truthiness of an optional boolean: [undefined] is falsy. *)
Definition truthy (v : option bool) : bool :=
  match v with
  | Some b => b
  | None => false
  end.

(** [c.visible !== false] *)
Definition not_false (v : option bool) : bool :=
  match v with
  | Some false => false
  | _ => true
  end.

Definition computeInitialColumns (columns : list DataTableColumn)
  : list DataTableColumn :=
  map (fun c => set_visible (Some (not_false (visible c))) c) columns.

(** ** The data source

    [DataSource] lives in [state/datasource/DataSource]; the coordinator
    only reads [output] and calls the four configuration methods and
    [getItem]. *)
Module DataSource.
Section WithRow.
Context {T : Type}.

Inductive Call : Type :=
| CallSetFilter (f : option (T -> bool))
| CallSetSortBy (k : option string)
| CallSetReversed (b : bool)
| CallReset.

(** Modelled from the spec: the DataSource class itself is missing from
    the sources at hand.  It holds the derived [output] sequence and the
    filter / sort / reverse configuration; [calls] records every method
    the coordinator invoked, oldest first. *)
Record t : Type := mk {
  output : list T;
  sortBy : option string;
  reversed : bool;
  filterBy : option (T -> bool);
  calls : list Call;
}.

(** Modelled from the spec: [setFilter], [setSortBy] and [setReversed]
    are configuration setters, and [reset] clears the filter and sort
    configuration.  How [output] is recomputed afterwards is the data
    source's own business and is not modelled. *)
Definition setFilter (f : option (T -> bool)) (ds : t) : t :=
  {| output := output ds; sortBy := sortBy ds; reversed := reversed ds;
     filterBy := f; calls := calls ds ++ [CallSetFilter f] |}.

Definition setSortBy (k : option string) (ds : t) : t :=
  {| output := output ds; sortBy := k; reversed := reversed ds;
     filterBy := filterBy ds; calls := calls ds ++ [CallSetSortBy k] |}.

Definition setReversed (b : bool) (ds : t) : t :=
  {| output := output ds; sortBy := sortBy ds; reversed := b;
     filterBy := filterBy ds; calls := calls ds ++ [CallSetReversed b] |}.

Definition reset (ds : t) : t :=
  {| output := output ds; sortBy := None; reversed := false;
     filterBy := None; calls := calls ds ++ [CallReset] |}.

(** Modelled from the spec: [getItem(index)] returns the row at [index]
    in [output], [undefined] when there is none. *)
Definition getItem (ds : t) (index : Z) : option T :=
  if decide (0 <= index) then output ds !! Z.to_nat index else None.

(** The environment replaces [output] (rows appended, a new filter or
    order taking effect). *)
Definition withOutput (rows : list T) (ds : t) : t :=
  {| output := rows; sortBy := sortBy ds; reversed := reversed ds;
     filterBy := filterBy ds; calls := calls ds |}.
End WithRow.
Arguments t : clear implicits.
Arguments Call : clear implicits.
End DataSource.

(** ** The coordinator's state and its monad *)
Section Coordinator.
Context {V : Type} `{!Stringify V} `{LC : !Lowercase}.

(** A row is a JavaScript object: a finite map from property names to
    values. *)
Abbreviation Row := (gmap string V).

(** The arguments of [useDataTableManager] other than the data source.
    [onSelect] tells whether the optional callback was passed. *)
Record Props : Type := mkProps {
  defaultColumns : list DataTableColumn;
  onSelect : bool;
}.

(** The four [useState] cells of the hook, the data source it was handed,
    the renderer's [virtualizerRef] (the number of [virtualItems], [None]
    while [current] is undefined) and the trace of [onSelect] calls.
    Indices are integers: the selection starts at -1 and every updater of
    the table computes with [+], [-], [min] and [max] on integers. *)
Record Manager : Type := mkManager {
  columns : list DataTableColumn;
  selection : Z;
  sorting : option Sorting;
  searchValue : string;
  dataSource : DataSource.t Row;
  virtualizerRef : option nat;
  onSelectCalls : list (option Row * Z);
}.

Definition M (A : Type) : Type := Manager -> Result (A * Manager).

Definition ret {A} (a : A) : M A := fun m => Ok (a, m).

Definition bind {A B} (c : M A) (k : A -> M B) : M B :=
  fun m =>
    match c m with
    | Ok (a, m') => k a m'
    | Throw e => Throw e
    end.

Definition gets {A} (f : Manager -> A) : M A := fun m => Ok (f m, m).

Definition modify (f : Manager -> Manager) : M unit := fun m => Ok (tt, f m).

(** Run a computation that only reads the state. *)
Definition reading {A} (r : Manager -> Result A) : M A :=
  fun m =>
    match r m with
    | Ok a => Ok (a, m)
    | Throw e => Throw e
    end.

Declare Scope manager_scope.
Delimit Scope manager_scope with manager.
Notation "x <- c ; k" := (bind c (fun x => k))
  (at level 20, c at level 100, k at level 200, only parsing) : manager_scope.
Notation "c ;; k" := (bind c (fun _ => k))
  (at level 100, k at level 200, only parsing, right associativity) : manager_scope.
Local Open Scope manager_scope.

(** *** State setters *)

Definition setEffectiveColumns
    (updater : list DataTableColumn -> Result (list DataTableColumn)) : M unit :=
  fun m =>
    match updater (columns m) with
    | Ok cs =>
        Ok (tt, {| columns := cs; selection := selection m;
                   sorting := sorting m; searchValue := searchValue m;
                   dataSource := dataSource m;
                   virtualizerRef := virtualizerRef m;
                   onSelectCalls := onSelectCalls m |})
    | Throw e => Throw e
    end.

Definition setSelection (i : Z) : M unit :=
  modify (fun m =>
    {| columns := columns m; selection := i; sorting := sorting m;
       searchValue := searchValue m; dataSource := dataSource m;
       virtualizerRef := virtualizerRef m;
       onSelectCalls := onSelectCalls m |}).

Definition setSorting (s : option Sorting) : M unit :=
  modify (fun m =>
    {| columns := columns m; selection := selection m; sorting := s;
       searchValue := searchValue m; dataSource := dataSource m;
       virtualizerRef := virtualizerRef m;
       onSelectCalls := onSelectCalls m |}).

Definition setSearchValue (text : string) : M unit :=
  modify (fun m =>
    {| columns := columns m; selection := selection m; sorting := sorting m;
       searchValue := text; dataSource := dataSource m;
       virtualizerRef := virtualizerRef m;
       onSelectCalls := onSelectCalls m |}).

(** A method call on the data source object. *)
Definition onDataSource (f : DataSource.t Row -> DataSource.t Row) : M unit :=
  modify (fun m =>
    {| columns := columns m; selection := selection m; sorting := sorting m;
       searchValue := searchValue m; dataSource := f (dataSource m);
       virtualizerRef := virtualizerRef m;
       onSelectCalls := onSelectCalls m |}).

(** [onSelect?.(item, newIndex)] *)
Definition callOnSelect (props : Props) (item : option Row) (index : Z) : M unit :=
  if onSelect props then
    modify (fun m =>
      {| columns := columns m; selection := selection m; sorting := sorting m;
         searchValue := searchValue m; dataSource := dataSource m;
         virtualizerRef := virtualizerRef m;
         onSelectCalls := onSelectCalls m ++ [(item, index)] |})
  else ret tt.

(** *** Derived values *)

Definition visibleColumns (m : Manager) : list DataTableColumn :=
  List.filter (fun column => truthy (visible column)) (columns m).

(** [Object.values(item)] *)
Definition Object_values (item : Row) : list V := (map_to_list item).*2.

Definition dataTableFilter (searchString : string) (item : Row) : bool :=
  existsb (fun v => includes (toLowerCase (toString v)) searchString)
          (Object_values item).

Definition computeFilter (searchValue : string) : option (Row -> bool) :=
  if decide (searchValue = "") then None
  else
    let searchString := toLowerCase searchValue in
    Some (dataTableFilter searchString).

Definition currentFilter (m : Manager) : option (Row -> bool) :=
  computeFilter (searchValue m).

(** *** Callbacks of the hook *)

Definition reset (props : Props) : M unit :=
  setEffectiveColumns (fun _ => Ok (computeInitialColumns (defaultColumns props)));;
  setSorting None;;
  onDataSource DataSource.reset.

(** [columns.find((c) => c.key === id)!] followed by an assignment to a
    field of the result, inside an immer recipe: the column found is
    replaced in place.  When nothing is found the recipe dereferences
    [undefined] and raises [on_undefined]. *)
Definition produce_on_column (id : string) (on_undefined : Error)
    (assign : DataTableColumn -> DataTableColumn)
    (columns : list DataTableColumn) : Result (list DataTableColumn) :=
  match list_find (fun c => key c = id) columns with
  | Some (i, col) => Ok (<[i := assign col]> columns)
  | None => Throw on_undefined
  end.

(** [col.width = width]: on [undefined] the assignment raises. *)
Definition resizeColumn (id : string) (width : Width) : M unit :=
  setEffectiveColumns
    (produce_on_column id (TypeError "Cannot set properties of undefined")
       (set_width (Some width))).

Definition sortColumn (key : string) : M unit :=
  sorting <- gets sorting;
  if decide (sorting_key <$> sorting = Some key) then
    if decide (direction <$> sorting = Some down) then
      setSorting (Some {| sorting_key := key; direction := up |});;
      onDataSource (DataSource.setReversed true)
    else
      setSorting None;;
      onDataSource (DataSource.setSortBy None);;
      onDataSource (DataSource.setReversed false)
  else
    setSorting (Some {| sorting_key := key; direction := down |});;
    onDataSource (DataSource.setSortBy (Some key));;
    onDataSource (DataSource.setReversed false).

(** [col.visible = !col.visible]: on [undefined] the read of
    [col.visible] on the right comes first and raises. *)
Definition toggleColumnVisibility (id : string) : M unit :=
  setEffectiveColumns
    (produce_on_column id (TypeError "Cannot read properties of undefined")
       (fun col => set_visible (Some (negb (truthy (visible col)))) col)).

(** A selection updater may read the data source and the renderer (the
    closures of [onKeyDown] do), and may raise. *)
Definition Updater : Type := Z -> Manager -> Result Z.

Definition selectItem (props : Props) (updater : Updater) : M unit :=
  currentIndex <- gets selection;
  newIndex <- reading (updater currentIndex);
  dataSource <- gets dataSource;
  let item :=
    if decide (newIndex >= 0 /\ newIndex < Z.of_nat (List.length (DataSource.output dataSource)))
    then DataSource.getItem dataSource newIndex
    else None in
  callOnSelect props item newIndex;;
  setSelection newIndex.

(** The effect that follows a change of [currentFilter]. *)
Definition applyFilter : M unit :=
  currentFilter <- gets currentFilter;
  onDataSource (DataSource.setFilter currentFilter).

(** *** Keyboard handling (DataTable.tsx) *)

Definition output_length (m : Manager) : Z :=
  Z.of_nat (List.length (DataSource.output (dataSource m))).

(** [virtualizerRef.current!.virtualItems.length] *)
Definition virtualItems_length (m : Manager) : Result Z :=
  match virtualizerRef m with
  | Some n => Ok (Z.of_nat n)
  | None => Throw (TypeError "Cannot read properties of undefined")
  end.

(** [onKeyDown] returns [handled]; the event is stopped exactly when it is
    [true]. *)
Definition onKeyDown (props : Props) (e_key : string) : M bool :=
  if decide (e_key = "ArrowUp") then
    selectItem props (fun idx _ => Ok (if decide (idx > 0) then idx - 1 else 0));;
    ret true
  else if decide (e_key = "ArrowDown") then
    selectItem props (fun idx m =>
      Ok (if decide (idx < output_length m - 1) then idx + 1 else idx));;
    ret true
  else if decide (e_key = "Home") then
    selectItem props (fun _ _ => Ok 0);;
    ret true
  else if decide (e_key = "End") then
    selectItem props (fun _ m => Ok (output_length m - 1));;
    ret true
  else if decide (e_key = "PageDown") then
    selectItem props (fun idx m =>
      match virtualItems_length m with
      | Ok n => Ok (Z.min (output_length m - 1) (idx + n - 1))
      | Throw e => Throw e
      end);;
    ret true
  else if decide (e_key = "PageUp") then
    selectItem props (fun idx m =>
      match virtualItems_length m with
      | Ok n => Ok (Z.max 0 (idx - n - 1))
      | Throw e => Throw e
      end);;
    ret true
  else ret false.

(** [renderingConfig.onClick] *)
Definition onClick (props : Props) (itemIdx : Z) : M unit :=
  selectItem props (fun _ _ => Ok itemIdx).

(** *** Life of a mounted table *)

(** First render: the initial values of the state cells, then the
    [applyFilter] effect. *)
Definition initial (props : Props) (ds : DataSource.t Row)
    (virtualizer : option nat) : Manager :=
  {| columns := computeInitialColumns (defaultColumns props);
     selection := -1;
     sorting := None;
     searchValue := "";
     dataSource := ds;
     virtualizerRef := virtualizer;
     onSelectCalls := [] |}.

Definition mount (props : Props) (ds : DataSource.t Row)
    (virtualizer : option nat) : Result (unit * Manager) :=
  applyFilter (initial props ds virtualizer).

(** What can happen to a mounted table: a call of one of the functions
    the hook returns, a key press or a click on a row, and the two
    collaborators changing under it.  [currentFilter] is memoized on
    [searchValue], so the [applyFilter] effect follows [setSearchValue]
    exactly when the text differs from the previous one. *)
Inductive Event : Type :=
| DoReset
| DoResizeColumn (id : string) (width : Width)
| DoSortColumn (key : string)
| DoToggleColumnVisibility (id : string)
| DoSetSearchValue (text : string)
| DoSelectItem (updater : Z -> Z)
| KeyDown (e_key : string)
| Click (itemIdx : Z)
| OutputChanged (rows : list Row)
| VirtualizerChanged (virtualizer : option nat).

Definition handle (props : Props) (ev : Event) : M unit :=
  match ev with
  | DoReset => reset props
  | DoResizeColumn id width => resizeColumn id width
  | DoSortColumn key => sortColumn key
  | DoToggleColumnVisibility id => toggleColumnVisibility id
  | DoSetSearchValue text =>
    previous <- gets searchValue;
    setSearchValue text;;
    if decide (text = previous) then ret tt else applyFilter
  | DoSelectItem updater => selectItem props (fun idx _ => Ok (updater idx))
  | KeyDown e_key => _ <- onKeyDown props e_key; ret tt
  | Click itemIdx => onClick props itemIdx
  | OutputChanged rows => onDataSource (DataSource.withOutput rows)
  | VirtualizerChanged virtualizer =>
      modify (fun m =>
        {| columns := columns m; selection := selection m;
           sorting := sorting m; searchValue := searchValue m;
           dataSource := dataSource m; virtualizerRef := virtualizer;
           onSelectCalls := onSelectCalls m |})
  end.

Fixpoint handle_all (props : Props) (evs : list Event) : M unit :=
  match evs with
  | [] => ret tt
  | ev :: evs' => handle props ev;; handle_all props evs'
  end.

(** The states a table can be in: mounted, then any events, none of
    which raised. *)
Definition reachable (props : Props) (m : Manager) : Prop :=
  exists ds virtualizer evs m0,
    mount props ds virtualizer = Ok (tt, m0) /\
    handle_all props evs m0 = Ok (tt, m).

End Coordinator.

Arguments Manager : clear implicits.
Arguments Event : clear implicits.
Arguments M : clear implicits.
Arguments Updater : clear implicits.

(** ** The rest of the view (DataTable.tsx) *)

(** [usesWrapping]: [tableManager.columns.some((col) => col.wrap)]; the
    renderer gets [useFixedRowHeight = !usesWrapping]. *)
Definition usesWrapping {V : Type} (m : Manager V) : bool :=
  existsb (fun col => truthy (wrap col)) (columns m).

Definition useFixedRowHeight {V : Type} (m : Manager V) : bool :=
  negb (usesWrapping m).

(** [scrollSelectionIntoView], the layout effect with dependencies
    [[selection]]: after a render that follows the state [m], in which the
    selection was [previous], the index [virtualizerRef.current?.scrollToIndex]
    is called with, if it is called.  The effect is skipped when the
    selection did not change. *)
Definition scrollSelectionIntoView {V : Type} (previous : Z) (m : Manager V) : option Z :=
  if decide (selection m = previous) then None
  else if decide (selection m >= 0) then
    match virtualizerRef m with
    | Some _ => Some (selection m)
    | None => None
    end
  else None.

(** The keys [onKeyDown] has a case for. *)
Definition navigation_keys : list string :=
  ["ArrowUp"; "ArrowDown"; "Home"; "End"; "PageDown"; "PageUp"].

(** ** Predicates used in the statements *)

(** [t] occurs in [s]. *)
Definition isSubstring (t s : string) : Prop :=
  exists p q, s = p ++ t ++ q.

(** Some field of the row has a string representation whose lowercased
    form contains the lowercased [s]. *)
Definition someFieldContains {V : Type} `{!Stringify V} `{LC : !Lowercase}
    (s : string) (row : gmap string V) : Prop :=
  exists k v, row !! k = Some v /\
    isSubstring (toLowerCase s) (toLowerCase (toString v)).

(** The key of the current sorting, if any, is the key of some column. *)
Definition sorting_key_exists {V : Type} (m : Manager V) : Prop :=
  forall s, sorting m = Some s ->
    exists c, c ∈ columns m /\ key c = sorting_key s.

(** Every [sortColumn] among the events names a column of the table. *)
Definition sorts_known_keys {V : Type} (props : Props) (evs : list (Event V)) : Prop :=
  forall k, DoSortColumn k ∈ evs -> k ∈ map key (defaultColumns props).

(** The state [selectItem] commits once its updater has produced
    [newIndex]. *)
Definition itemAt {V : Type} (m : Manager V) (newIndex : Z) : option (gmap string V) :=
  if decide (0 <= newIndex < output_length m)
  then DataSource.getItem (dataSource m) newIndex
  else None.

Definition onSelectTrace {V : Type} (props : Props) (m : Manager V) (newIndex : Z)
  : list (option (gmap string V) * Z) :=
  (onSelectCalls m ++ (if onSelect props then [(itemAt m newIndex, newIndex)] else []))%list.

Definition selected {V : Type} (props : Props) (newIndex : Z) (m : Manager V) : Manager V :=
  {| columns := columns m; selection := newIndex; sorting := sorting m;
     searchValue := searchValue m; dataSource := dataSource m;
     virtualizerRef := virtualizerRef m;
     onSelectCalls := onSelectTrace props m newIndex |}.

(** The columns are the default columns, in their order, up to width and
    visibility. *)
Definition keys_as_defaults {V : Type} (props : Props) (m : Manager V) : Prop :=
  map key (columns m) = map key (defaultColumns props).

(** No column has an absent [visible] field. *)
Definition visible_is_boolean {V : Type} (m : Manager V) : Prop :=
  Forall (fun c => is_Some (visible c)) (columns m).

(** What no operation of the hook writes: every field of a column but
    [width] and [visible]. *)
Definition fixed_fields (c : DataTableColumn)
  : string * option string * option bool * option Align :=
  (key c, title c, wrap c, align c).

(** The sorting of the coordinator and the sort configuration of the data
    source say the same. *)
Definition sorting_matches_source {V : Type} (m : Manager V) : Prop :=
  match sorting m with
  | None =>
      DataSource.sortBy (dataSource m) = None /\
      DataSource.reversed (dataSource m) = false
  | Some s =>
      DataSource.sortBy (dataSource m) = Some (sorting_key s) /\
      DataSource.reversed (dataSource m) = bool_decide (direction s = up)
  end.

(** The data source filters by the predicate derived from the search
    value. *)
Definition filter_matches_search {V : Type} `{!Stringify V} `{LC : !Lowercase} (m : Manager V) : Prop :=
  DataSource.filterBy (dataSource m) = currentFilter m.

(** The events that go through [selectItem]. *)
Definition is_selection_event {V : Type} (ev : Event V) : bool :=
  match ev with
  | DoSelectItem _ | KeyDown _ | Click _ => true
  | _ => false
  end.

(** The state with its columns replaced. *)
Definition with_columns {V : Type} (cs : list DataTableColumn) (m : Manager V) : Manager V :=
  {| columns := cs; selection := selection m; sorting := sorting m;
     searchValue := searchValue m; dataSource := dataSource m;
     virtualizerRef := virtualizerRef m; onSelectCalls := onSelectCalls m |}.

(** The assignment in the recipe of [toggleColumnVisibility]. *)
Definition flip_visible (col : DataTableColumn) : DataTableColumn :=
  set_visible (Some (negb (truthy (visible col)))) col.

(** ** A sample table

    Two columns, the second hidden by default, over rows with a single
    [name] field. *)
Module Sample.

(** What [toLowerCase] does to ASCII text, which is all the sample tables
    hold: the letters A-Z become a-z. *)
Definition lowercase_ascii_char (c : ascii) : ascii :=
  let n := N_of_ascii c in
  if ((65 <=? n) && (n <=? 90))%N then ascii_of_N (n + 32) else c.

Fixpoint lowercase_ascii (s : string) : string :=
  match s with
  | EmptyString => EmptyString
  | String c s' => String (lowercase_ascii_char c) (lowercase_ascii s')
  end.

#[global] Instance Lowercase_ascii : Lowercase := lowercase_ascii.

Definition nameColumn : DataTableColumn :=
  {| key := "name"; title := Some "Name"; width := None; wrap := None;
     align := None; visible := None |}.

Definition ageColumn : DataTableColumn :=
  {| key := "age"; title := None; width := Some (Pixels 80); wrap := None;
     align := Some AlignRight; visible := Some false |}.

Definition props : Props :=
  {| defaultColumns := [nameColumn; ageColumn]; onSelect := true |}.

Definition alice : gmap string string := {[ "name" := "Alice" ]}.
Definition bob : gmap string string := {[ "name" := "bob" ]}.

Definition rows (n : nat) : list (gmap string string) := replicate n alice.

Definition source (output : list (gmap string string)) : DataSource.t (gmap string string) :=
  {| DataSource.output := output; DataSource.sortBy := None;
     DataSource.reversed := false; DataSource.filterBy := None;
     DataSource.calls := [] |}.

(** The table right after mounting over [output], with [v] rows in the
    renderer's window. *)
Definition mounted (output : list (gmap string string)) (v : nat) : Manager string :=
  {| columns := computeInitialColumns (defaultColumns props);
     selection := -1; sorting := None; searchValue := "";
     dataSource := DataSource.setFilter None (source output);
     virtualizerRef := Some v; onSelectCalls := [] |}.

(** The same table with row [i] selected. *)
Definition mounted_at (output : list (gmap string string)) (v : nat) (i : Z) : Manager string :=
  selected props i (mounted output v).

(** A table that has been worked on: a column shown, one resized, a sort
    and a search. *)
Definition busy_events : list (Event string) :=
  [DoToggleColumnVisibility "age"; DoResizeColumn "name" (Pixels 120);
   DoSortColumn "name"; DoSetSearchValue "al"].

Definition busy : Manager string :=
  match handle_all props busy_events (mounted (rows 3) 5) with
  | Ok (_, m) => m
  | Throw _ => mounted (rows 3) 5
  end.

(** A table that was searched, sorted, and whose search was cleared. *)
Definition search_events : list (Event string) :=
  [DoSetSearchValue "AL"; DoSortColumn "name"; DoSetSearchValue ""].

Definition searched : Manager string :=
  match handle_all props search_events (mounted [alice; bob] 5) with
  | Ok (_, m) => m
  | Throw _ => mounted [alice; bob] 5
  end.

End Sample.

(** ** JavaScript strings: facts *)
Module JSFacts.

Lemma startsWith_spec (s t : string) :
  startsWith s t = true <-> exists q, s = t ++ q.
Proof.
  revert s. induction t as [|b t IH]; intros s; simpl.
  - split; [intros _; exists s; reflexivity | reflexivity].
  - destruct s as [|a s]; simpl.
    + split; [discriminate | intros [q Hq]; discriminate].
    + rewrite andb_true_iff, IH. split.
      * intros [Hab [q ->]]. apply Ascii.eqb_eq in Hab as ->. now exists q.
      * intros [q Hq]. injection Hq as -> ->. split; [apply Ascii.eqb_refl | now exists q].
Qed.

Lemma includes_spec (s t : string) :
  includes s t = true <-> isSubstring t s.
Proof.
  unfold isSubstring. induction s as [|a s IH]; simpl.
  - rewrite orb_false_r, startsWith_spec. split.
    + intros [q Hq]. exists "", q. exact Hq.
    + intros [p [q Hq]]. destruct p; [now exists q | discriminate].
  - rewrite orb_true_iff, IH, startsWith_spec. split.
    + intros [[q Hq] | [p [q Hq]]].
      * exists "", q. exact Hq.
      * exists (String a p), q. simpl. now rewrite Hq.
    + intros [p [q Hq]]. destruct p as [|c p]; simpl in Hq.
      * left. now exists q.
      * right. injection Hq as _ Hq. now exists p, q.
Qed.

End JSFacts.

(** ** The coordinator: facts *)

Ltac unfold_monad :=
  unfold bind, ret, gets, modify, reading, setEffectiveColumns, setSelection,
    setSorting, setSearchValue, onDataSource, callOnSelect in *.

Section CoordinatorFacts.
Context {V : Type} `{!Stringify V} `{LC : !Lowercase}.
Implicit Types (m : Manager V) (props : Props) (k id : string).

(** *** Selection *)

Lemma selectItem_run props (updater : Updater V) m (newIndex : Z) :
  updater (selection m) m = Ok newIndex ->
  selectItem props updater m = Ok (tt, selected props newIndex m).
Proof.
  intros Hu. unfold selectItem, selected, onSelectTrace, itemAt, output_length.
  unfold_monad. simpl. rewrite Hu. simpl.
  destruct (onSelect props); simpl.
  - repeat case_decide; try lia; try reflexivity.
  - now rewrite app_nil_r.
Qed.

Lemma selectItem_throws props (updater : Updater V) m e :
  updater (selection m) m = Throw e ->
  selectItem props updater m = Throw e.
Proof.
  intros Hu. unfold selectItem. unfold_monad. simpl. now rewrite Hu.
Qed.

Lemma selectItem_inv props (updater : Updater V) m m' :
  selectItem props updater m = Ok (tt, m') ->
  exists newIndex, updater (selection m) m = Ok newIndex /\ m' = selected props newIndex m.
Proof.
  intros H. destruct (updater (selection m) m) as [n|e] eqn:Hu.
  - rewrite (selectItem_run _ _ _ _ Hu) in H. injection H as <-. eauto.
  - rewrite (selectItem_throws _ _ _ _ Hu) in H. discriminate.
Qed.

Lemma getItem_in_range (ds : DataSource.t (gmap string V)) (i : Z) :
  0 <= i < Z.of_nat (List.length (DataSource.output ds)) ->
  exists row, DataSource.getItem ds i = Some row /\
              DataSource.output ds !! Z.to_nat i = Some row.
Proof.
  intros Hi. unfold DataSource.getItem. case_decide; [|lia].
  destruct (lookup_lt_is_Some_2 (DataSource.output ds) (Z.to_nat i)) as [row Hrow]; [lia|].
  exists row. now rewrite Hrow.
Qed.

Lemma onKeyDown_inv props e_key m handled m' :
  onKeyDown props e_key m = Ok (handled, m') ->
  m' = m \/ exists newIndex, m' = selected props newIndex m.
Proof.
  unfold onKeyDown. intros H.
  repeat case_decide;
    try (unfold bind at 1 in H;
         match type of H with
         | context [selectItem ?p ?u ?m] =>
             destruct (selectItem p u m) as [[[] m1]|e] eqn:Hs; [|discriminate];
             apply selectItem_inv in Hs as (n & _ & ->);
             unfold ret in H; injection H as _ <-; right; eauto
         end).
  unfold ret in H. injection H as _ <-. now left.
Qed.

(** *** Columns *)

Lemma computeInitialColumns_keys (cs : list DataTableColumn) :
  map key (computeInitialColumns cs) = map key cs.
Proof.
  unfold computeInitialColumns. induction cs as [|c cs IH]; simpl; [reflexivity|].
  now rewrite IH.
Qed.

Lemma computeInitialColumns_visible (cs : list DataTableColumn) :
  Forall (fun c => is_Some (visible c)) (computeInitialColumns cs).
Proof.
  unfold computeInitialColumns. induction cs as [|c cs IH]; simpl; constructor; eauto.
Qed.

Lemma produce_on_column_inv id e assign (cs cs' : list DataTableColumn) :
  produce_on_column id e assign cs = Ok cs' ->
  exists i col, cs !! i = Some col /\ key col = id /\ cs' = <[i := assign col]> cs.
Proof.
  unfold produce_on_column.
  destruct (list_find _ cs) as [[i col]|] eqn:Hf; [|discriminate].
  intros [= <-]. apply list_find_Some in Hf as (Hi & Hk & _). eauto.
Qed.

Lemma produce_on_column_missing id e assign (cs : list DataTableColumn) :
  (forall c, c ∈ cs -> key c <> id) ->
  produce_on_column id e assign cs = Throw e.
Proof.
  intros Hno. unfold produce_on_column.
  destruct (list_find _ cs) as [[i col]|] eqn:Hf; [|reflexivity].
  apply list_find_Some in Hf as (Hi & Hk & _).
  exfalso. apply (Hno col); [|exact Hk]. eapply list_elem_of_lookup_2, Hi.
Qed.

Lemma insert_same_key (cs : list DataTableColumn) i col col' :
  cs !! i = Some col -> key col' = key col ->
  map key (<[i := col']> cs) = map key cs.
Proof.
  intros Hi Hk. change (map key) with (fmap (M := list) key).
  rewrite list_fmap_insert, Hk. apply list_insert_id.
  now rewrite list_lookup_fmap, Hi.
Qed.

Lemma setEffectiveColumns_inv (updater : list DataTableColumn -> Result (list DataTableColumn)) m m' :
  setEffectiveColumns updater m = Ok (tt, m') ->
  exists cs, updater (columns m) = Ok cs /\ columns m' = cs /\
    selection m' = selection m /\ sorting m' = sorting m /\
    searchValue m' = searchValue m /\ dataSource m' = dataSource m /\
    virtualizerRef m' = virtualizerRef m /\ onSelectCalls m' = onSelectCalls m.
Proof.
  unfold setEffectiveColumns. destruct (updater (columns m)) as [cs|e]; [|discriminate].
  intros [= <-]. exists cs. simpl. tauto.
Qed.

(** *** What an event can do to the columns and to the sorting *)

Lemma reset_run props m :
  reset props m =
    Ok (tt, {| columns := computeInitialColumns (defaultColumns props);
               selection := selection m; sorting := None;
               searchValue := searchValue m;
               dataSource := DataSource.reset (dataSource m);
               virtualizerRef := virtualizerRef m;
               onSelectCalls := onSelectCalls m |}).
Proof. reflexivity. Qed.

Lemma handle_keeps_keys props (ev : Event V) m m' :
  handle props ev m = Ok (tt, m') ->
  keys_as_defaults props m -> keys_as_defaults props m'.
Proof.
  unfold keys_as_defaults. intros H Hk.
  destruct ev; simpl in H.
  - rewrite reset_run in H. injection H as <-. simpl. apply computeInitialColumns_keys.
  - apply setEffectiveColumns_inv in H as (cs & Hp & -> & _).
    apply produce_on_column_inv in Hp as (i & col & Hi & _ & ->).
    now rewrite (insert_same_key _ _ col).
  - unfold sortColumn in H. unfold_monad. simpl in H.
    repeat case_decide; injection H as <-; exact Hk.
  - apply setEffectiveColumns_inv in H as (cs & Hp & -> & _).
    apply produce_on_column_inv in Hp as (i & col & Hi & _ & ->).
    now rewrite (insert_same_key _ _ col).
  - unfold applyFilter in H. unfold_monad. simpl in H.
    case_decide; injection H as <-; exact Hk.
  - apply selectItem_inv in H as (n & _ & ->). exact Hk.
  - unfold bind in H. destruct (onKeyDown props e_key m) as [[h m1]|e] eqn:Hkd; [|discriminate].
    unfold ret in H. injection H as <-.
    apply onKeyDown_inv in Hkd as [-> | [n ->]]; exact Hk.
  - apply selectItem_inv in H as (n & _ & ->). exact Hk.
  - unfold_monad. injection H as <-. exact Hk.
  - unfold_monad. injection H as <-. exact Hk.
Qed.

Lemma handle_keeps_visible_boolean props (ev : Event V) m m' :
  handle props ev m = Ok (tt, m') ->
  visible_is_boolean m -> visible_is_boolean m'.
Proof.
  unfold visible_is_boolean. intros H Hk.
  destruct ev; simpl in H.
  - rewrite reset_run in H. injection H as <-. simpl. apply computeInitialColumns_visible.
  - apply setEffectiveColumns_inv in H as (cs & Hp & -> & _).
    apply produce_on_column_inv in Hp as (i & col & Hi & _ & ->).
    apply Forall_insert; [exact Hk|]. simpl.
    eapply (Forall_lookup_1 _ _ _ _ Hk Hi).
  - unfold sortColumn in H. unfold_monad. simpl in H.
    repeat case_decide; injection H as <-; exact Hk.
  - apply setEffectiveColumns_inv in H as (cs & Hp & -> & _).
    apply produce_on_column_inv in Hp as (i & col & Hi & _ & ->).
    apply Forall_insert; [exact Hk|]. simpl. eauto.
  - unfold applyFilter in H. unfold_monad. simpl in H.
    case_decide; injection H as <-; exact Hk.
  - apply selectItem_inv in H as (n & _ & ->). exact Hk.
  - unfold bind in H. destruct (onKeyDown props e_key m) as [[h m1]|e] eqn:Hkd; [|discriminate].
    unfold ret in H. injection H as <-.
    apply onKeyDown_inv in Hkd as [-> | [n ->]]; exact Hk.
  - apply selectItem_inv in H as (n & _ & ->). exact Hk.
  - unfold_monad. injection H as <-. exact Hk.
  - unfold_monad. injection H as <-. exact Hk.
Qed.

Lemma handle_sorting props (ev : Event V) m m' :
  handle props ev m = Ok (tt, m') ->
  sorting m' = sorting m \/ sorting m' = None \/
  exists k d, ev = DoSortColumn k /\ sorting m' = Some {| sorting_key := k; direction := d |}.
Proof.
  intros H. destruct ev; simpl in H.
  - rewrite reset_run in H. injection H as <-. auto.
  - apply setEffectiveColumns_inv in H as (cs & _ & _ & _ & -> & _). auto.
  - unfold sortColumn in H. unfold_monad. simpl in H.
    repeat case_decide; injection H as <-; simpl; eauto 6.
  - apply setEffectiveColumns_inv in H as (cs & _ & _ & _ & -> & _). auto.
  - unfold applyFilter in H. unfold_monad. simpl in H.
    case_decide; injection H as <-; auto.
  - apply selectItem_inv in H as (n & _ & ->). auto.
  - unfold bind in H. destruct (onKeyDown props e_key m) as [[h m1]|e] eqn:Hkd; [|discriminate].
    unfold ret in H. injection H as <-.
    apply onKeyDown_inv in Hkd as [-> | [n ->]]; auto.
  - apply selectItem_inv in H as (n & _ & ->). auto.
  - unfold_monad. injection H as <-. auto.
  - unfold_monad. injection H as <-. auto.
Qed.

Lemma handle_all_cons_inv props (ev : Event V) evs m m' :
  handle_all props (ev :: evs) m = Ok (tt, m') ->
  exists m1, handle props ev m = Ok (tt, m1) /\ handle_all props evs m1 = Ok (tt, m').
Proof.
  simpl. unfold bind. destruct (handle props ev m) as [[[] m1]|e]; [|discriminate].
  eauto.
Qed.

(** An invariant of [handle] is an invariant of [handle_all]. *)
Lemma handle_all_invariant props (P : Manager V -> Prop) :
  (forall ev m m', handle props ev m = Ok (tt, m') -> P m -> P m') ->
  forall evs m m', handle_all props evs m = Ok (tt, m') -> P m -> P m'.
Proof.
  intros Hstep evs. induction evs as [|ev evs IH]; intros m m' H HP.
  - simpl in H. unfold ret in H. now injection H as <-.
  - apply handle_all_cons_inv in H as (m1 & H1 & H2). eauto.
Qed.

Lemma mount_run props (ds : DataSource.t (gmap string V)) virtualizer :
  mount props ds virtualizer =
    Ok (tt, {| columns := computeInitialColumns (defaultColumns props);
               selection := -1; sorting := None; searchValue := "";
               dataSource := DataSource.setFilter None ds;
               virtualizerRef := virtualizer; onSelectCalls := [] |}).
Proof. reflexivity. Qed.

Lemma reachable_keys props m : reachable props m -> keys_as_defaults props m.
Proof.
  intros (ds & vr & evs & m0 & Hm & Hrun).
  eapply (handle_all_invariant props (keys_as_defaults props)); eauto using handle_keeps_keys.
  rewrite mount_run in Hm. injection Hm as <-. apply computeInitialColumns_keys.
Qed.

Lemma reachable_visible_boolean props m : reachable props m -> visible_is_boolean m.
Proof.
  intros (ds & vr & evs & m0 & Hm & Hrun).
  eapply (handle_all_invariant props visible_is_boolean); eauto using handle_keeps_visible_boolean.
  rewrite mount_run in Hm. injection Hm as <-. apply computeInitialColumns_visible.
Qed.

End CoordinatorFacts.

(** ** Selection: [selectItem] *)

(** C1. Whatever index [N] the updater returns, [selectItem] calls
    [onSelect] (when one was passed) with the item [getItem(N)] if
    [0 <= N < output.length] and [undefined] otherwise, together with [N],
    and then commits [N] as the selection, in range or not; nothing else of
    the coordinator changes.  In range, the item is the row at [N]. *)
Theorem selectItem_commits_unconditionally {V : Type}
    (props : Props) (updater : Updater V) (m : Manager V) (N : Z) :
  updater (selection m) m = Ok N ->
  exists m',
    selectItem props updater m = Ok (tt, m') /\
    selection m' = N /\
    onSelectCalls m' =
      (onSelectCalls m ++
       (if onSelect props
        then [(if decide (0 <= N < Z.of_nat (List.length (DataSource.output (dataSource m))))
               then DataSource.getItem (dataSource m) N
               else None, N)]
        else []))%list /\
    (0 <= N < Z.of_nat (List.length (DataSource.output (dataSource m))) ->
     exists row, DataSource.output (dataSource m) !! Z.to_nat N = Some row /\
                 DataSource.getItem (dataSource m) N = Some row) /\
    columns m' = columns m /\ sorting m' = sorting m /\
    searchValue m' = searchValue m /\ dataSource m' = dataSource m.
Proof.
  intros Hu. exists (selected props N m). split; [now apply selectItem_run|].
  repeat split.
  intros HN. destruct (getItem_in_range (dataSource m) N HN) as (row & Hg & Ho).
  eauto.
Qed.

Lemma selectItem_commits_unconditionally_witness :
  exists m',
    selectItem Sample.props (fun _ _ => Ok 7) (Sample.mounted (Sample.rows 3) 5) = Ok (tt, m') /\
    selection m' = 7 /\
    onSelectCalls m' = [(None, 7)].
Proof.
  destruct (selectItem_commits_unconditionally Sample.props (fun _ _ => Ok 7)
              (Sample.mounted (Sample.rows 3) 5) 7 eq_refl)
    as (m' & Hrun & Hsel & Hcalls & _).
  exists m'. split; [exact Hrun|]. split; [exact Hsel|]. exact Hcalls.
Defined.

(** ** Sorting: [sortColumn] *)

Section SortColumn.
Context {V : Type}.
Implicit Types (m : Manager V) (k : string).

(** The three branches of [sortColumn], one lemma each. *)
Lemma sortColumn_other_key k m :
  sorting_key <$> sorting m <> Some k ->
  sortColumn k m =
    Ok (tt, {| columns := columns m; selection := selection m;
               sorting := Some {| sorting_key := k; direction := down |};
               searchValue := searchValue m;
               dataSource :=
                 DataSource.setReversed false
                   (DataSource.setSortBy (Some k) (dataSource m));
               virtualizerRef := virtualizerRef m;
               onSelectCalls := onSelectCalls m |}).
Proof.
  intros Hk. unfold sortColumn. unfold_monad. simpl.
  case_decide; [contradiction | reflexivity].
Qed.

Lemma sortColumn_same_key_down k m :
  sorting m = Some {| sorting_key := k; direction := down |} ->
  sortColumn k m =
    Ok (tt, {| columns := columns m; selection := selection m;
               sorting := Some {| sorting_key := k; direction := up |};
               searchValue := searchValue m;
               dataSource := DataSource.setReversed true (dataSource m);
               virtualizerRef := virtualizerRef m;
               onSelectCalls := onSelectCalls m |}).
Proof.
  intros Hs. unfold sortColumn. unfold_monad. simpl. rewrite Hs.
  destruct (decide _) as [_|H]; [|destruct H; reflexivity].
  destruct (decide _) as [_|H]; [reflexivity | destruct H; reflexivity].
Qed.

Lemma sortColumn_same_key_up k m :
  sorting m = Some {| sorting_key := k; direction := up |} ->
  sortColumn k m =
    Ok (tt, {| columns := columns m; selection := selection m;
               sorting := None;
               searchValue := searchValue m;
               dataSource :=
                 DataSource.setReversed false
                   (DataSource.setSortBy None (dataSource m));
               virtualizerRef := virtualizerRef m;
               onSelectCalls := onSelectCalls m |}).
Proof.
  intros Hs. unfold sortColumn. unfold_monad. simpl. rewrite Hs.
  destruct (decide _) as [_|H]; [|destruct H; reflexivity].
  destruct (decide _) as [H|_]; [discriminate H | reflexivity].
Qed.

(** [sortColumn] never raises, and leaves the sorting unset or on its key. *)
Lemma sortColumn_total k m :
  exists m1, sortColumn k m = Ok (tt, m1) /\
    (sorting m1 = None \/
     exists d, sorting m1 = Some {| sorting_key := k; direction := d |}).
Proof.
  destruct (decide (sorting_key <$> sorting m = Some k)) as [Hk|Hk].
  - destruct (sorting m) as [[k' []]|] eqn:Hs; simpl in Hk; [| |discriminate];
      injection Hk as Hk; subst k'.
    + rewrite (sortColumn_same_key_up k m Hs). eauto.
    + rewrite (sortColumn_same_key_down k m Hs). eauto 6.
  - rewrite (sortColumn_other_key k m Hk). eauto 6.
Qed.

End SortColumn.

(** C2. Starting from a state whose sorting is not on [k], three
    consecutive [sortColumn(k)] go through [{key: k, direction: down}] with
    [reversed = false], then [{key: k, direction: up}] with
    [reversed = true], and end with no sorting, [sortBy = undefined] and
    [reversed = false]. *)
Theorem sortColumn_three_times_cycles {V : Type} (k : string) (m : Manager V) :
  sorting_key <$> sorting m <> Some k ->
  exists m1 m2 m3,
    sortColumn k m = Ok (tt, m1) /\
    sortColumn k m1 = Ok (tt, m2) /\
    sortColumn k m2 = Ok (tt, m3) /\
    (sorting m1 = Some {| sorting_key := k; direction := down |} /\
     DataSource.sortBy (dataSource m1) = Some k /\
     DataSource.reversed (dataSource m1) = false /\
     DataSource.calls (dataSource m1) =
       (DataSource.calls (dataSource m) ++
        [DataSource.CallSetSortBy (Some k); DataSource.CallSetReversed false])%list) /\
    (sorting m2 = Some {| sorting_key := k; direction := up |} /\
     DataSource.sortBy (dataSource m2) = Some k /\
     DataSource.reversed (dataSource m2) = true /\
     DataSource.calls (dataSource m2) =
       (DataSource.calls (dataSource m1) ++ [DataSource.CallSetReversed true])%list) /\
    (sorting m3 = None /\
     DataSource.sortBy (dataSource m3) = None /\
     DataSource.reversed (dataSource m3) = false /\
     DataSource.calls (dataSource m3) =
       (DataSource.calls (dataSource m2) ++
        [DataSource.CallSetSortBy None; DataSource.CallSetReversed false])%list).
Proof.
  intros Hk.
  eexists _, _, _. split; [apply (sortColumn_other_key k m Hk)|].
  split; [apply sortColumn_same_key_down; reflexivity|].
  split; [apply sortColumn_same_key_up; reflexivity|].
  simpl. rewrite <- !app_assoc. simpl. auto 12.
Qed.

Lemma sortColumn_three_times_cycles_witness :
  exists m1 m2 m3,
    sortColumn "name" (Sample.mounted (Sample.rows 3) 5) = Ok (tt, m1) /\
    sortColumn "name" m1 = Ok (tt, m2) /\
    sortColumn "name" m2 = Ok (tt, m3) /\
    sorting m3 = None /\
    DataSource.sortBy (dataSource m3) = None /\
    DataSource.reversed (dataSource m3) = false.
Proof.
  destruct (sortColumn_three_times_cycles "name" (Sample.mounted (Sample.rows 3) 5))
    as (m1 & m2 & m3 & H1 & H2 & H3 & _ & _ & H4 & H5 & H6 & _).
  - simpl. discriminate.
  - exists m1, m2, m3. auto 6.
Defined.

(** C9. [sortColumn(k1)] followed by [sortColumn(k2)] with [k1 <> k2]
    ends with [{key: k2, direction: down}], [sortBy = k2] and
    [reversed = false], whatever the sorting was before the first call. *)
Theorem sortColumn_switch_key_restarts_descending {V : Type}
    (k1 k2 : string) (m : Manager V) :
  k1 <> k2 ->
  exists m1 m2,
    sortColumn k1 m = Ok (tt, m1) /\
    sortColumn k2 m1 = Ok (tt, m2) /\
    sorting m2 = Some {| sorting_key := k2; direction := down |} /\
    DataSource.sortBy (dataSource m2) = Some k2 /\
    DataSource.reversed (dataSource m2) = false /\
    DataSource.calls (dataSource m2) =
      (DataSource.calls (dataSource m1) ++
       [DataSource.CallSetSortBy (Some k2); DataSource.CallSetReversed false])%list.
Proof.
  intros Hne. destruct (sortColumn_total k1 m) as (m1 & H1 & Hs).
  exists m1. eexists. split; [exact H1|].
  split; [apply sortColumn_other_key|simpl; rewrite <- !app_assoc; auto].
  destruct Hs as [-> | [d ->]]; simpl; congruence.
Qed.

Lemma sortColumn_switch_key_restarts_descending_witness :
  exists m1 m2,
    sortColumn "name" (Sample.mounted (Sample.rows 3) 5) = Ok (tt, m1) /\
    sortColumn "age" m1 = Ok (tt, m2) /\
    sorting m2 = Some {| sorting_key := "age"; direction := down |} /\
    DataSource.sortBy (dataSource m2) = Some "age" /\
    DataSource.reversed (dataSource m2) = false.
Proof.
  destruct (sortColumn_switch_key_restarts_descending "name" "age"
              (Sample.mounted (Sample.rows 3) 5))
    as (m1 & m2 & H1 & H2 & H3 & H4 & H5 & _); [discriminate|].
  exists m1, m2. auto.
Defined.

(** ** Columns: [resizeColumn] with a key no column has *)

(** C3, as stated, fails: on the sample table, no column has key [zzz],
    and [resizeColumn("zzz", 10)] does not return with the state unchanged;
    it raises. *)
Lemma resizeColumn_unknown_key_not_silent :
  (forall c, c ∈ columns (Sample.mounted (Sample.rows 3) 5) -> key c <> "zzz") /\
  resizeColumn "zzz" (Pixels 10) (Sample.mounted (Sample.rows 3) 5)
    <> Ok (tt, Sample.mounted (Sample.rows 3) 5) /\
  resizeColumn "zzz" (Pixels 10) (Sample.mounted (Sample.rows 3) 5)
    = Throw (TypeError "Cannot set properties of undefined").
Proof.
  split; [|split].
  - intros c Hc. simpl in Hc.
    apply elem_of_cons in Hc as [-> | Hc]; [discriminate|].
    apply elem_of_cons in Hc as [-> | Hc]; [discriminate|].
    now apply elem_of_nil in Hc.
  - discriminate.
  - reflexivity.
Qed.

(** C3, amended.  If no column has key [id], the recipe of
    [resizeColumn(id, width)] assigns to a field of [undefined]: the call
    raises a [TypeError] and produces no new state. *)
Theorem resizeColumn_unknown_key_raises {V : Type}
    (id : string) (width : Width) (m : Manager V) :
  (forall c, c ∈ columns m -> key c <> id) ->
  resizeColumn id width m = Throw (TypeError "Cannot set properties of undefined").
Proof.
  intros Hno. unfold resizeColumn, setEffectiveColumns.
  now rewrite produce_on_column_missing.
Qed.

Lemma resizeColumn_unknown_key_raises_witness :
  resizeColumn "zzz" (Percentage "50%") (Sample.mounted (Sample.rows 3) 5)
    = Throw (TypeError "Cannot set properties of undefined").
Proof.
  apply (resizeColumn_unknown_key_raises "zzz" (Percentage "50%")
           (Sample.mounted (Sample.rows 3) 5)).
  intros c Hc. simpl in Hc.
  apply elem_of_cons in Hc as [-> | Hc]; [discriminate|].
  apply elem_of_cons in Hc as [-> | Hc]; [discriminate|].
  now apply elem_of_nil in Hc.
Defined.

(** ** Keyboard navigation: [onKeyDown] *)

Section KeyDown.
Context {V : Type}.
Implicit Types (m : Manager V) (props : Props).

Lemma onKeyDown_ArrowDown props m :
  onKeyDown props "ArrowDown" m =
    Ok (true,
        selected props
          (if decide (selection m < output_length m - 1)
           then selection m + 1 else selection m) m).
Proof.
  unfold onKeyDown.
  destruct (decide ("ArrowDown" = "ArrowUp")) as [E|_]; [discriminate E|].
  destruct (decide ("ArrowDown" = "ArrowDown")) as [_|E]; [|now destruct E].
  unfold bind at 1. now rewrite (selectItem_run _ _ _ _ eq_refl).
Qed.

Lemma onKeyDown_End props m :
  onKeyDown props "End" m = Ok (true, selected props (output_length m - 1) m).
Proof.
  unfold onKeyDown.
  destruct (decide ("End" = "ArrowUp")) as [E|_]; [discriminate E|].
  destruct (decide ("End" = "ArrowDown")) as [E|_]; [discriminate E|].
  destruct (decide ("End" = "Home")) as [E|_]; [discriminate E|].
  destruct (decide ("End" = "End")) as [_|E]; [|now destruct E].
  unfold bind at 1. now rewrite (selectItem_run _ _ _ _ eq_refl).
Qed.

Lemma onKeyDown_PageUp props m (v : nat) :
  virtualizerRef m = Some v ->
  onKeyDown props "PageUp" m =
    Ok (true, selected props (Z.max 0 (selection m - Z.of_nat v - 1)) m).
Proof.
  intros Hv. unfold onKeyDown.
  destruct (decide ("PageUp" = "ArrowUp")) as [E|_]; [discriminate E|].
  destruct (decide ("PageUp" = "ArrowDown")) as [E|_]; [discriminate E|].
  destruct (decide ("PageUp" = "Home")) as [E|_]; [discriminate E|].
  destruct (decide ("PageUp" = "End")) as [E|_]; [discriminate E|].
  destruct (decide ("PageUp" = "PageDown")) as [E|_]; [discriminate E|].
  destruct (decide ("PageUp" = "PageUp")) as [_|E]; [|now destruct E].
  unfold bind at 1.
  rewrite (selectItem_run _ _ _ (Z.max 0 (selection m - Z.of_nat v - 1))); [reflexivity|].
  unfold virtualItems_length. now rewrite Hv.
Qed.

End KeyDown.

(** C4, as stated, fails: row 5 of ten is clicked, the output then shrinks
    to three rows, and ArrowDown leaves the selection at 5, which is neither
    [min(5+1, 3-1)] nor inside [[0, 2]]. *)
Lemma ArrowDown_keeps_index_beyond_end :
  exists m0 m m',
    mount Sample.props (Sample.source (Sample.rows 10)) (Some 5%nat) = Ok (tt, m0) /\
    handle_all Sample.props [Click 5; OutputChanged (Sample.rows 3)] m0 = Ok (tt, m) /\
    selection m = 5 /\ output_length m = 3 /\
    onKeyDown Sample.props "ArrowDown" m = Ok (true, m') /\
    selection m' = 5 /\
    selection m' <> Z.min (5 + 1) (3 - 1) /\
    ~ (0 <= selection m' <= 3 - 1).
Proof.
  eexists _, _, _.
  split; [reflexivity|]. split; [reflexivity|].
  split; [reflexivity|]. split; [reflexivity|].
  split; [apply onKeyDown_ArrowDown|].
  simpl. repeat split; lia.
Qed.

(** C4, amended.  ArrowDown is handled, and updates the selection through
    [idx < output.length - 1 ? idx + 1 : idx].  That is
    [min(idx+1, output.length-1)] as long as [idx <= output.length - 1],
    and then lies in [[0, output.length-1]] when moreover [idx >= -1] and
    the output is not empty; an index at or above [output.length - 1] is
    kept as it is. *)
Theorem ArrowDown_moves_forward_below_end {V : Type} (props : Props) (m : Manager V) :
  exists m',
    onKeyDown props "ArrowDown" m = Ok (true, m') /\
    m' = selected props (selection m') m /\
    selection m' =
      (if decide (selection m < output_length m - 1)
       then selection m + 1 else selection m) /\
    (selection m <= output_length m - 1 ->
     selection m' = Z.min (selection m + 1) (output_length m - 1)) /\
    (-1 <= selection m <= output_length m - 1 -> 1 <= output_length m ->
     0 <= selection m' <= output_length m - 1) /\
    (output_length m - 1 <= selection m -> selection m' = selection m).
Proof.
  eexists. split; [apply onKeyDown_ArrowDown|]. simpl.
  split; [reflexivity|]. split; [reflexivity|].
  case_decide; repeat split; lia.
Qed.

Lemma ArrowDown_moves_forward_below_end_witness :
  (exists m',
     onKeyDown Sample.props "ArrowDown" (Sample.mounted_at (Sample.rows 3) 5 1)
       = Ok (true, m') /\
     selection m' = 2 /\ 0 <= selection m' <= 2) /\
  (exists m',
     onKeyDown Sample.props "ArrowDown" (Sample.mounted_at (Sample.rows 3) 5 2)
       = Ok (true, m') /\
     selection m' = 2).
Proof.
  split.
  - destruct (ArrowDown_moves_forward_below_end Sample.props
                (Sample.mounted_at (Sample.rows 3) 5 1))
      as (m' & Hrun & _ & _ & Hmin & Hrange & _).
    exists m'. split; [exact Hrun|]. split.
    + apply Hmin. unfold output_length. simpl. lia.
    + apply Hrange; unfold output_length; simpl; lia.
  - destruct (ArrowDown_moves_forward_below_end Sample.props
                (Sample.mounted_at (Sample.rows 3) 5 2))
      as (m' & Hrun & _ & _ & _ & _ & Hkeep).
    exists m'. split; [exact Hrun|].
    apply Hkeep. unfold output_length. simpl. lia.
Defined.

(** C8. With [v] rows in the renderer's window, PageUp is handled and
    updates the selection through [max(0, idx - v - 1)]; with twenty rows
    in the output and five in the window, End selects row 19 and PageUp
    then selects row 13. *)
Theorem PageUp_moves_back_by_window {V : Type}
    (props : Props) (m : Manager V) (v : nat) :
  virtualizerRef m = Some v ->
  (exists m',
     onKeyDown props "PageUp" m = Ok (true, m') /\
     selection m' = Z.max 0 (selection m - Z.of_nat v - 1) /\
     m' = selected props (selection m') m) /\
  (v = 5%nat -> output_length m = 20 ->
   exists m1 m2,
     onKeyDown props "End" m = Ok (true, m1) /\ selection m1 = 19 /\
     onKeyDown props "PageUp" m1 = Ok (true, m2) /\ selection m2 = 13).
Proof.
  intros Hv. split.
  - eexists. split; [apply (onKeyDown_PageUp props m v Hv)|]. split; reflexivity.
  - intros -> HL. eexists _, _.
    split; [apply onKeyDown_End|]. split; [simpl; lia|].
    split; [apply (onKeyDown_PageUp _ _ 5); exact Hv|]. simpl. lia.
Qed.

Lemma PageUp_moves_back_by_window_witness :
  exists m1 m2,
    onKeyDown Sample.props "End" (Sample.mounted (Sample.rows 20) 5) = Ok (true, m1) /\
    selection m1 = 19 /\
    onKeyDown Sample.props "PageUp" m1 = Ok (true, m2) /\
    selection m2 = 13.
Proof.
  destruct (PageUp_moves_back_by_window Sample.props
              (Sample.mounted (Sample.rows 20) 5) 5 eq_refl) as [_ Hseq].
  apply Hseq; reflexivity.
Defined.

(** ** Search: the filter predicate and its propagation *)

Section Filter.
Context {V : Type} `{!Stringify V} `{LC : !Lowercase}.

Lemma Object_values_spec (item : gmap string V) (v : V) :
  v ∈ Object_values item <-> exists k, item !! k = Some v.
Proof.
  unfold Object_values. rewrite list_elem_of_fmap. split.
  - intros ([k v'] & -> & Hin). exists k. now apply elem_of_map_to_list.
  - intros [k Hk]. exists (k, v). split; [reflexivity|]. now apply elem_of_map_to_list.
Qed.

Lemma dataTableFilter_spec (s : string) (item : gmap string V) :
  dataTableFilter (toLowerCase s) item = true <-> someFieldContains s item.
Proof.
  unfold dataTableFilter, someFieldContains. rewrite existsb_exists. split.
  - intros (v & Hin & Hv). apply list_elem_of_In, Object_values_spec in Hin as [k Hk].
    exists k, v. split; [exact Hk|]. now apply JSFacts.includes_spec.
  - intros (k & v & Hk & Hv). exists v. split.
    + apply list_elem_of_In, Object_values_spec. eauto.
    + now apply JSFacts.includes_spec.
Qed.

Lemma computeFilter_nonempty (s : string) :
  s <> "" -> computeFilter s = Some (dataTableFilter (toLowerCase s)).
Proof. intros Hs. unfold computeFilter. case_decide; [contradiction | reflexivity]. Qed.

Lemma applyFilter_run (m : Manager V) :
  applyFilter m =
    Ok (tt, {| columns := columns m; selection := selection m;
               sorting := sorting m; searchValue := searchValue m;
               dataSource := DataSource.setFilter (currentFilter m) (dataSource m);
               virtualizerRef := virtualizerRef m;
               onSelectCalls := onSelectCalls m |}).
Proof. reflexivity. Qed.

End Filter.

(** C5. For a search value [s] that is not empty, the derived filter
    accepts a row exactly when some field of the row has a string
    representation whose lowercased form contains the lowercased [s], so
    that the case of letters does not count: two search values with the
    same lowercased form derive the same predicate.  The effect hands that
    predicate to the data source, and [undefined] for the empty search
    value.  Of the rows [{name: "Alice"}] and [{name: "bob"}], the search
    [AL] keeps only the first; of [toLowerCase] this uses that it sends
    [AL], [Alice] and [bob] to [al], [alice] and [bob]. *)
Theorem search_filter_semantics :
  (forall (V : Type) (S : Stringify V) (LC : Lowercase) (s : string),
     s <> "" ->
     exists f : gmap string V -> bool,
       computeFilter s = Some f /\
       (forall row, f row = true <->
          exists k v, row !! k = Some v /\
                      isSubstring (toLowerCase s) (toLowerCase (toString v))) /\
       (forall s', s' <> "" -> toLowerCase s' = toLowerCase s ->
          computeFilter s' = Some f) /\
       (forall m : Manager V, searchValue m = s ->
          exists m', applyFilter m = Ok (tt, m') /\
            DataSource.filterBy (dataSource m') = Some f /\
            DataSource.calls (dataSource m') =
              (DataSource.calls (dataSource m) ++ [DataSource.CallSetFilter (Some f)])%list)) /\
  (forall (V : Type) (S : Stringify V) (LC : Lowercase) (m : Manager V),
     searchValue m = "" ->
     exists m', applyFilter m = Ok (tt, m') /\
       DataSource.filterBy (dataSource m') = None /\
       DataSource.calls (dataSource m') =
         (DataSource.calls (dataSource m) ++ [DataSource.CallSetFilter None])%list) /\
  (forall LC : Lowercase,
     toLowerCase "AL" = "al" -> toLowerCase "Alice" = "alice" ->
     toLowerCase "bob" = "bob" ->
     exists f, computeFilter "AL" = Some f /\
       List.filter f [Sample.alice; Sample.bob] = [Sample.alice]).
Proof.
  split; [|split].
  - intros V S LC s Hs. exists (dataTableFilter (toLowerCase s)).
    split; [now apply computeFilter_nonempty|].
    split; [intros row; apply dataTableFilter_spec|].
    split.
    + intros s' Hs' Hlow. rewrite (computeFilter_nonempty s' Hs'). now rewrite Hlow.
    + intros m Hm. rewrite applyFilter_run. eexists. split; [reflexivity|].
      unfold currentFilter. rewrite Hm, (computeFilter_nonempty s Hs). simpl. auto.
  - intros V S LC m Hm. rewrite applyFilter_run. eexists. split; [reflexivity|].
    unfold currentFilter. rewrite Hm. simpl. auto.
  - intros LC HAL HAlice Hbob. exists (dataTableFilter (toLowerCase "AL")).
    split; [apply computeFilter_nonempty; discriminate|].
    rewrite HAL.
    assert (Ha : dataTableFilter "al" Sample.alice = true).
    { unfold dataTableFilter.
      replace (Object_values Sample.alice) with ["Alice"] by (vm_compute; reflexivity).
      cbn [existsb]. unfold toString, Stringify_string. now rewrite HAlice. }
    assert (Hb : dataTableFilter "al" Sample.bob = false).
    { unfold dataTableFilter.
      replace (Object_values Sample.bob) with ["bob"] by (vm_compute; reflexivity).
      cbn [existsb]. unfold toString, Stringify_string. now rewrite Hbob. }
    cbn [List.filter]. now rewrite Ha, Hb.
Qed.

Lemma search_filter_semantics_witness :
  (exists f : gmap string string -> bool,
     computeFilter "AL" = Some f /\
     List.filter f [Sample.alice; Sample.bob] = [Sample.alice]) /\
  (exists m', applyFilter (Sample.mounted (Sample.rows 3) 5) = Ok (tt, m') /\
     DataSource.filterBy (dataSource m') = None).
Proof.
  destruct search_filter_semantics as (_ & Hnone & Hsample).
  split.
  - apply (Hsample Sample.Lowercase_ascii); reflexivity.
  - destruct (Hnone string _ Sample.Lowercase_ascii
                (Sample.mounted (Sample.rows 3) 5) eq_refl)
      as (m' & Hrun & Hfilter & _).
    exists m'. split; assumption.
Defined.

(** ** Reset, and what holds in every state a table can reach *)

Section Reachable.
Context {V : Type} `{!Stringify V} `{LC : !Lowercase}.
Implicit Types (m : Manager V) (props : Props).

Lemma computeInitialColumns_defaults (cs : list DataTableColumn) :
  Forall2
    (fun d c =>
       key c = key d /\ title c = title d /\ width c = width d /\
       wrap c = wrap d /\ align c = align d /\
       (visible d = Some false -> visible c = Some false) /\
       (visible d <> Some false -> visible c = Some true))
    cs (computeInitialColumns cs).
Proof.
  unfold computeInitialColumns. induction cs as [|d cs IH]; simpl; constructor; [|exact IH].
  simpl. repeat split; try reflexivity.
  - now intros ->.
  - destruct (visible d) as [[]|]; simpl; congruence.
Qed.

Lemma filter_truthy_sublist (cs : list DataTableColumn) :
  sublist (List.filter (fun c => truthy (visible c)) cs) cs.
Proof.
  induction cs as [|c cs IH]; simpl; [constructor|].
  destruct (truthy (visible c)); now constructor.
Qed.

Lemma filter_truthy_is_true (cs : list DataTableColumn) :
  List.filter (fun c => truthy (visible c)) cs =
  List.filter (fun c => bool_decide (visible c = Some true)) cs.
Proof.
  induction cs as [|c cs IH]; simpl; [reflexivity|]. rewrite IH.
  destruct (visible c) as [[]|]; reflexivity.
Qed.

Lemma handle_all_sorting_known props (evs : list (Event V)) m m' :
  handle_all props evs m = Ok (tt, m') ->
  sorts_known_keys props evs ->
  (forall s, sorting m = Some s -> sorting_key s ∈ map key (defaultColumns props)) ->
  forall s, sorting m' = Some s -> sorting_key s ∈ map key (defaultColumns props).
Proof.
  revert m. induction evs as [|ev evs IH]; intros m H Hknown Hm.
  - simpl in H. unfold ret in H. now injection H as <-.
  - apply handle_all_cons_inv in H as (m1 & H1 & H2).
    apply (IH m1 H2).
    + intros k Hk. apply Hknown. now apply elem_of_cons; right.
    + intros s Hs. destruct (handle_sorting _ _ _ _ H1) as [E | [E | (k & d & -> & E)]].
      * apply Hm. congruence.
      * congruence.
      * rewrite E in Hs. injection Hs as <-. simpl.
        apply Hknown. now apply elem_of_cons; left.
Qed.

End Reachable.

(** C6. In any state the table has reached, [reset()] succeeds; afterwards
    the columns are the default columns in their order, each with [visible]
    false if the default said [false] and true otherwise, the sorting is
    unset, the data source has received [reset()], and the search value is
    what it was. *)
Theorem reset_restores_defaults {V : Type} `{!Stringify V} `{LC : !Lowercase}
    (props : Props) (m : Manager V) :
  reachable props m ->
  exists m',
    reset props m = Ok (tt, m') /\
    Forall2
      (fun d c =>
         key c = key d /\ title c = title d /\ width c = width d /\
         wrap c = wrap d /\ align c = align d /\
         (visible d = Some false -> visible c = Some false) /\
         (visible d <> Some false -> visible c = Some true))
      (defaultColumns props) (columns m') /\
    sorting m' = None /\
    dataSource m' = DataSource.reset (dataSource m) /\
    DataSource.calls (dataSource m') =
      (DataSource.calls (dataSource m) ++ [DataSource.CallReset])%list /\
    searchValue m' = searchValue m /\
    selection m' = selection m.
Proof.
  intros _. rewrite reset_run. eexists. split; [reflexivity|]. simpl.
  split; [apply computeInitialColumns_defaults|]. auto.
Qed.

Lemma reset_restores_defaults_witness :
  handle_all Sample.props Sample.busy_events (Sample.mounted (Sample.rows 3) 5)
    = Ok (tt, Sample.busy) /\
  visible <$> columns Sample.busy = [Some true; Some true] /\
  searchValue Sample.busy = "al" /\
  exists m',
    reset Sample.props Sample.busy = Ok (tt, m') /\
    visible <$> columns m' = [Some true; Some false] /\
    sorting m' = None /\ searchValue m' = "al".
Proof.
  split; [reflexivity|]. split; [reflexivity|]. split; [reflexivity|].
  assert (Hreach : reachable Sample.props Sample.busy).
  { exists (Sample.source (Sample.rows 3)), (Some 5%nat), Sample.busy_events,
      (Sample.mounted (Sample.rows 3) 5).
    split; reflexivity. }
  destruct (reset_restores_defaults Sample.props Sample.busy Hreach)
    as (m' & Hrun & _ & Hsort & _ & _ & Hsearch & _).
  exists m'. split; [exact Hrun|].
  split; [|split; [exact Hsort | exact Hsearch]].
  rewrite reset_run in Hrun. injection Hrun as <-. reflexivity.
Defined.

(** C7, as stated, fails: on the sample table, [sortColumn("zzz")] is
    accepted although no column has that key, and the sorting then names a
    key that no column has. *)
Lemma sortColumn_unknown_key_breaks_sorting_invariant :
  exists m0 m,
    mount Sample.props (Sample.source (Sample.rows 3)) (Some 5%nat) = Ok (tt, m0) /\
    handle_all Sample.props [DoSortColumn "zzz"] m0 = Ok (tt, m) /\
    reachable Sample.props m /\
    sorting m = Some {| sorting_key := "zzz"; direction := down |} /\
    ~ sorting_key_exists m.
Proof.
  eexists _, _. split; [reflexivity|]. split; [reflexivity|]. split; [|split].
  - exists (Sample.source (Sample.rows 3)), (Some 5%nat), [DoSortColumn "zzz"],
      (Sample.mounted (Sample.rows 3) 5).
    split; reflexivity.
  - reflexivity.
  - intros Hinv. destruct (Hinv _ eq_refl) as (c & Hc & Hk). simpl in Hc, Hk.
    apply elem_of_cons in Hc as [-> | Hc]; [discriminate|].
    apply elem_of_cons in Hc as [-> | Hc]; [discriminate|].
    now apply elem_of_nil in Hc.
Qed.

(** C7, amended.  After mounting and any events none of which raised, if
    every [sortColumn] among them was given the key of a column of the
    table, then the sorting, when set, names the key of a column. *)
Theorem sorting_key_exists_when_sorts_name_columns {V : Type} `{!Stringify V} `{LC : !Lowercase}
    (props : Props) (ds : DataSource.t (gmap string V)) (virtualizer : option nat)
    (evs : list (Event V)) (m0 m : Manager V) :
  mount props ds virtualizer = Ok (tt, m0) ->
  handle_all props evs m0 = Ok (tt, m) ->
  sorts_known_keys props evs ->
  sorting_key_exists m.
Proof.
  intros Hm Hrun Hknown s Hs.
  assert (Hkeys : keys_as_defaults props m).
  { apply reachable_keys. exists ds, virtualizer, evs, m0. auto. }
  assert (Hin : sorting_key s ∈ map key (defaultColumns props)).
  { apply (handle_all_sorting_known props evs m0 m Hrun Hknown); [|exact Hs].
    rewrite mount_run in Hm. injection Hm as <-. simpl. discriminate. }
  rewrite <- Hkeys in Hin. change (map key) with (fmap (M := list) key) in Hin.
  apply list_elem_of_fmap in Hin as (c & Hk & Hc). eauto.
Qed.

Lemma sorting_key_exists_when_sorts_name_columns_witness :
  exists m,
    handle_all Sample.props [DoSortColumn "age"; DoToggleColumnVisibility "age"]
      (Sample.mounted (Sample.rows 3) 5) = Ok (tt, m) /\
    sorting m = Some {| sorting_key := "age"; direction := down |} /\
    sorting_key_exists m.
Proof.
  eexists. split; [reflexivity|]. split; [reflexivity|].
  apply (sorting_key_exists_when_sorts_name_columns Sample.props
           (Sample.source (Sample.rows 3)) (Some 5%nat)
           [DoSortColumn "age"; DoToggleColumnVisibility "age"]
           (Sample.mounted (Sample.rows 3) 5)).
  - reflexivity.
  - reflexivity.
  - intros k Hk.
    apply elem_of_cons in Hk as [Hk | Hk]; [injection Hk as ->|].
    + simpl. apply elem_of_cons; right. apply elem_of_cons; now left.
    + apply elem_of_cons in Hk as [Hk | Hk]; [discriminate Hk|].
      now apply elem_of_nil in Hk.
Defined.

(** C10. In any state the table has reached, every column's [visible] is
    the boolean [true] or [false]; so [visibleColumns], which keeps the
    columns with a truthy [visible], keeps exactly those with
    [visible === true], in the order of the columns; and a
    [toggleColumnVisibility] that returns has replaced the [visible] of
    the column it found by the negation of the boolean it held. *)
Theorem visible_flag_is_boolean {V : Type} `{!Stringify V} `{LC : !Lowercase}
    (props : Props) (m : Manager V) :
  reachable props m ->
  Forall (fun c => visible c = Some true \/ visible c = Some false) (columns m) /\
  visibleColumns m =
    List.filter (fun c => bool_decide (visible c = Some true)) (columns m) /\
  sublist (visibleColumns m) (columns m) /\
  (forall id m',
     toggleColumnVisibility id m = Ok (tt, m') ->
     exists i col (b : bool),
       columns m !! i = Some col /\ key col = id /\ visible col = Some b /\
       columns m' = <[i := set_visible (Some (negb b)) col]> (columns m)).
Proof.
  intros Hreach. pose proof (reachable_visible_boolean props m Hreach) as Hbool.
  unfold visible_is_boolean in Hbool. split; [|split; [|split]].
  - eapply Forall_impl; [exact Hbool|]. intros c [[] Hb]; auto.
  - apply filter_truthy_is_true.
  - apply filter_truthy_sublist.
  - intros id m' H. apply setEffectiveColumns_inv in H as (cs & Hp & -> & _).
    apply produce_on_column_inv in Hp as (i & col & Hi & Hk & ->).
    destruct (Forall_lookup_1 _ _ _ _ Hbool Hi) as [b Hb].
    exists i, col, b. rewrite Hb. auto.
Qed.

Lemma visible_flag_is_boolean_witness :
  exists m,
    handle_all Sample.props [DoToggleColumnVisibility "age"; DoToggleColumnVisibility "name"]
      (Sample.mounted (Sample.rows 3) 5) = Ok (tt, m) /\
    key <$> visibleColumns m = ["age"] /\
    Forall (fun c => visible c = Some true \/ visible c = Some false) (columns m).
Proof.
  eexists. split; [reflexivity|]. split; [reflexivity|].
  apply (visible_flag_is_boolean Sample.props).
  exists (Sample.source (Sample.rows 3)), (Some 5%nat),
    [DoToggleColumnVisibility "age"; DoToggleColumnVisibility "name"],
    (Sample.mounted (Sample.rows 3) 5).
  split; reflexivity.
Defined.

(** ** The sample table: how its worked-on state is reached *)

Lemma Sample_busy_run :
  handle_all Sample.props Sample.busy_events (Sample.mounted (Sample.rows 3) 5)
    = Ok (tt, Sample.busy).
Proof. vm_compute. reflexivity. Qed.

Lemma Sample_busy_reachable : reachable Sample.props Sample.busy.
Proof.
  exists (Sample.source (Sample.rows 3)), (Some 5%nat), Sample.busy_events,
    (Sample.mounted (Sample.rows 3) 5).
  split; [reflexivity | exact Sample_busy_run].
Qed.

(** ** Columns: what [resizeColumn] and [toggleColumnVisibility] do *)

Section ColumnUpdates.
Implicit Types (cs : list DataTableColumn) (col : DataTableColumn) (id : string).

Lemma set_visible_same col (b : bool) :
  visible col = Some b -> set_visible (Some b) col = col.
Proof. destruct col; simpl; intros ->; reflexivity. Qed.

(** Replacing a column by one with the same key does not move what [find]
    finds. *)
Lemma list_find_insert_key id cs (i : nat) col col' :
  cs !! i = Some col -> key col' = key col ->
  list_find (fun c => key c = id) (<[i := col']> cs) =
    match list_find (fun c => key c = id) cs with
    | Some (j, c) => Some (j, if decide (j = i) then col' else c)
    | None => None
    end.
Proof.
  revert i. induction cs as [|x cs IH]; intros i Hi Hk; [discriminate|].
  destruct i as [|i]; simpl in *.
  - injection Hi as ->. rewrite Hk.
    destruct (decide (key col = id)); simpl; [reflexivity|].
    destruct (list_find _ cs) as [[j c]|]; reflexivity.
  - destruct (decide (key x = id)); simpl; [reflexivity|].
    rewrite (IH i Hi Hk).
    destruct (list_find _ cs) as [[j c]|]; simpl; [|reflexivity].
    destruct (decide (j = i)), (decide (S j = S i)); try reflexivity; lia.
Qed.

Lemma produce_on_column_found id e assign cs c :
  c ∈ cs -> key c = id ->
  exists i col,
    cs !! i = Some col /\ key col = id /\
    (forall j c', (j < i)%nat -> cs !! j = Some c' -> key c' <> id) /\
    list_find (fun c => key c = id) cs = Some (i, col) /\
    produce_on_column id e assign cs = Ok (<[i := assign col]> cs).
Proof.
  intros Hc Hk.
  destruct (list_find_elem_of (fun c => key c = id) cs c Hc Hk) as [[i col] Hf].
  unfold produce_on_column. rewrite Hf.
  apply list_find_Some in Hf as (Hi & Hkey & Hfirst).
  exists i, col. repeat split; eauto.
Qed.

Lemma filter_insert_length (f : DataTableColumn -> bool) cs (i : nat) col col' :
  cs !! i = Some col ->
  (List.length (List.filter f (<[i := col']> cs)) + (if f col then 1 else 0) =
   List.length (List.filter f cs) + (if f col' then 1 else 0))%nat.
Proof.
  revert i. induction cs as [|x cs IH]; intros i Hi; [discriminate|].
  destruct i as [|i]; simpl in *.
  - injection Hi as ->. destruct (f col), (f col'); simpl; lia.
  - specialize (IH i Hi). destruct (f x); simpl; lia.
Qed.

Lemma insert_same_projection {A : Type} (f : DataTableColumn -> A) cs (i : nat) col col' :
  cs !! i = Some col -> f col' = f col ->
  f <$> <[i := col']> cs = f <$> cs.
Proof.
  intros Hi Hf. rewrite list_fmap_insert, Hf. apply list_insert_id.
  now rewrite list_lookup_fmap, Hi.
Qed.

End ColumnUpdates.

Section ColumnUpdateRuns.
Context {V : Type}.
Implicit Types (m : Manager V) (id : string).

Lemma with_columns_same m : with_columns (columns m) m = m.
Proof. destruct m; reflexivity. Qed.

Lemma update_column_run id e assign m (i : nat) col :
  list_find (fun c => key c = id) (columns m) = Some (i, col) ->
  setEffectiveColumns (produce_on_column id e assign) m =
    Ok (tt, with_columns (<[i := assign col]> (columns m)) m).
Proof.
  intros Hf. unfold setEffectiveColumns, produce_on_column. now rewrite Hf.
Qed.

Lemma update_column_inv id e assign m m' :
  setEffectiveColumns (produce_on_column id e assign) m = Ok (tt, m') ->
  exists i col,
    list_find (fun c => key c = id) (columns m) = Some (i, col) /\
    m' = with_columns (<[i := assign col]> (columns m)) m.
Proof.
  unfold setEffectiveColumns, produce_on_column.
  destruct (list_find _ (columns m)) as [[i col]|]; [|discriminate].
  intros [= <-]. eauto.
Qed.

Lemma toggleColumnVisibility_as_update id m :
  toggleColumnVisibility id m =
    setEffectiveColumns
      (produce_on_column id (TypeError "Cannot read properties of undefined")
         flip_visible) m.
Proof. reflexivity. Qed.

End ColumnUpdateRuns.

(** X1. If no column has key [id], [toggleColumnVisibility(id)] raises a
    [TypeError] and produces no new state: in [col.visible = !col.visible]
    the read of [visible] from [undefined] comes first, so the error is that
    of a read, where [resizeColumn] raises that of an assignment. *)
Theorem toggleColumnVisibility_unknown_key_raises {V : Type}
    (id : string) (m : Manager V) :
  (forall c, c ∈ columns m -> key c <> id) ->
  toggleColumnVisibility id m = Throw (TypeError "Cannot read properties of undefined").
Proof.
  intros Hno. unfold toggleColumnVisibility, setEffectiveColumns.
  now rewrite produce_on_column_missing.
Qed.

Lemma toggleColumnVisibility_unknown_key_raises_witness :
  toggleColumnVisibility "zzz" Sample.busy
    = Throw (TypeError "Cannot read properties of undefined").
Proof.
  apply (toggleColumnVisibility_unknown_key_raises "zzz" Sample.busy).
  intros c Hc. vm_compute in Hc.
  apply elem_of_cons in Hc as [-> | Hc]; [discriminate|].
  apply elem_of_cons in Hc as [-> | Hc]; [discriminate|].
  now apply elem_of_nil in Hc.
Defined.

(** X2. In any state the table has reached, toggling the same column twice
    gives back the state it started from. *)
Theorem toggleColumnVisibility_twice_restores {V : Type} `{!Stringify V} `{LC : !Lowercase}
    (props : Props) (id : string) (m m1 : Manager V) :
  reachable props m ->
  toggleColumnVisibility id m = Ok (tt, m1) ->
  toggleColumnVisibility id m1 = Ok (tt, m).
Proof.
  intros Hreach H1. rewrite toggleColumnVisibility_as_update in *.
  apply update_column_inv in H1 as (i & col & Hf & ->).
  pose proof Hf as Hfind. apply list_find_Some in Hf as (Hi & Hk & _).
  destruct (Forall_lookup_1 _ _ _ _ (reachable_visible_boolean props m Hreach) Hi)
    as [b Hb].
  rewrite (update_column_run id _ flip_visible _ i (flip_visible col)).
  - simpl. rewrite list_insert_insert_eq.
    replace (flip_visible (flip_visible col)) with col.
    + rewrite (list_insert_id _ _ _ Hi). now destruct m.
    + unfold flip_visible. destruct col as [k t w wr a v]. simpl in *.
      subst v. simpl. now rewrite negb_involutive.
  - simpl. rewrite (list_find_insert_key id _ i col); [|exact Hi|reflexivity].
    rewrite Hfind. now rewrite decide_True.
Qed.

Lemma toggleColumnVisibility_twice_restores_witness :
  exists m1,
    toggleColumnVisibility "name" Sample.busy = Ok (tt, m1) /\
    visible <$> columns m1 = [Some false; Some true] /\
    toggleColumnVisibility "name" m1 = Ok (tt, Sample.busy).
Proof.
  eexists. split; [reflexivity|]. split; [reflexivity|].
  apply (toggleColumnVisibility_twice_restores Sample.props "name" Sample.busy).
  - exact Sample_busy_reachable.
  - reflexivity.
Defined.

(** X3. In any state the table has reached, a [toggleColumnVisibility(id)]
    that returns has changed the first column with key [id] and no other:
    its [visible] is negated, and the number of visible columns went up by
    one if it was hidden and down by one if it was shown. *)
Theorem toggleColumnVisibility_changes_one_column {V : Type} `{!Stringify V} `{LC : !Lowercase}
    (props : Props) (id : string) (m m' : Manager V) :
  reachable props m ->
  toggleColumnVisibility id m = Ok (tt, m') ->
  exists (i : nat) col (b : bool),
    columns m !! i = Some col /\ key col = id /\ visible col = Some b /\
    (forall j c, (j < i)%nat -> columns m !! j = Some c -> key c <> id) /\
    columns m' !! i = Some (set_visible (Some (negb b)) col) /\
    (forall j, j <> i -> columns m' !! j = columns m !! j) /\
    List.length (visibleColumns m') =
      (if b then List.length (visibleColumns m) - 1
       else List.length (visibleColumns m) + 1)%nat.
Proof.
  intros Hreach H. rewrite toggleColumnVisibility_as_update in H.
  apply update_column_inv in H as (i & col & Hf & ->).
  apply list_find_Some in Hf as (Hi & Hk & Hfirst).
  destruct (Forall_lookup_1 _ _ _ _ (reachable_visible_boolean props m Hreach) Hi)
    as [b Hb].
  exists i, col, b. simpl.
  split; [exact Hi|]. split; [exact Hk|]. split; [exact Hb|].
  split; [intros j c Hj Hc; eapply Hfirst; eauto|].
  split; [|split].
  - rewrite list_lookup_insert_eq by (eapply lookup_lt_Some; eauto).
    unfold flip_visible. now rewrite Hb.
  - intros j Hj. now apply list_lookup_insert_ne.
  - unfold visibleColumns. simpl.
    pose proof (filter_insert_length (fun c => truthy (visible c))
                  (columns m) i col (flip_visible col) Hi) as Hlen.
    unfold flip_visible in Hlen. simpl in Hlen. rewrite Hb in Hlen. simpl in Hlen.
    unfold flip_visible. rewrite Hb. simpl.
    destruct b; cbn [negb]; simpl in Hlen; lia.
Qed.

Lemma toggleColumnVisibility_changes_one_column_witness :
  List.length (visibleColumns Sample.busy) = 2%nat /\
  exists m' (i : nat) col (b : bool),
    toggleColumnVisibility "age" Sample.busy = Ok (tt, m') /\
    columns Sample.busy !! i = Some col /\ key col = "age" /\
    visible col = Some b /\
    List.length (visibleColumns m') =
      (if b then List.length (visibleColumns Sample.busy) - 1
       else List.length (visibleColumns Sample.busy) + 1)%nat.
Proof.
  split; [reflexivity|].
  pose proof Sample_busy_reachable as Hreach.
  destruct (toggleColumnVisibility_changes_one_column Sample.props "age"
              Sample.busy _ Hreach eq_refl)
    as (i & col & b & Hi & Hk & Hb & _ & _ & _ & Hlen).
  eexists _, i, col, b. split; [reflexivity|]. auto.
Defined.

(** X4. When some column has key [id], [resizeColumn(id, width)] returns;
    it has set the width of the first column with that key and has changed
    nothing else: not the other columns, not the keys or the visibility of
    any column, no other part of the state. *)
Theorem resizeColumn_sets_width_of_first_match {V : Type}
    (id : string) (width : Width) (m : Manager V) (c : DataTableColumn) :
  c ∈ columns m -> key c = id ->
  exists (i : nat) col m',
    resizeColumn id width m = Ok (tt, m') /\
    columns m !! i = Some col /\ key col = id /\
    (forall j c', (j < i)%nat -> columns m !! j = Some c' -> key c' <> id) /\
    columns m' !! i = Some (set_width (Some width) col) /\
    (forall j, j <> i -> columns m' !! j = columns m !! j) /\
    key <$> columns m' = key <$> columns m /\
    visible <$> columns m' = visible <$> columns m /\
    m' = with_columns (columns m') m.
Proof.
  intros Hc Hk.
  destruct (produce_on_column_found id (TypeError "Cannot set properties of undefined")
              (set_width (Some width)) (columns m) c Hc Hk)
    as (i & col & Hi & Hkey & Hfirst & Hf & _).
  exists i, col. eexists. unfold resizeColumn.
  split; [apply (update_column_run id _ _ m i col Hf)|]. simpl.
  split; [exact Hi|]. split; [exact Hkey|]. split; [exact Hfirst|].
  split; [apply list_lookup_insert_eq; eapply lookup_lt_Some; eauto|].
  split; [intros j Hj; now apply list_lookup_insert_ne|].
  split; [now apply (insert_same_projection key _ _ col)|].
  split; [now apply (insert_same_projection visible _ _ col)|].
  reflexivity.
Qed.

Lemma resizeColumn_sets_width_of_first_match_witness :
  exists m',
    resizeColumn "age" (Percentage "30%") Sample.busy = Ok (tt, m') /\
    width <$> columns m' = [Some (Pixels 120); Some (Percentage "30%")].
Proof.
  destruct (resizeColumn_sets_width_of_first_match "age" (Percentage "30%")
              Sample.busy (set_visible (Some true) Sample.ageColumn))
    as (i & col & m' & Hrun & _).
  - vm_compute. apply elem_of_cons; right. apply elem_of_cons; now left.
  - reflexivity.
  - exists m'. split; [exact Hrun|].
    unfold resizeColumn in Hrun.
    rewrite (update_column_run "age" _ _ Sample.busy 1
               (set_visible (Some true) Sample.ageColumn) eq_refl) in Hrun.
    injection Hrun as <-. reflexivity.
Defined.

(** X5. The last width wins: resizing a column that was just resized gives
    the state a single [resizeColumn] with the second width gives. *)
Theorem resizeColumn_last_width_wins {V : Type}
    (id : string) (w1 w2 : Width) (m m1 : Manager V) :
  resizeColumn id w1 m = Ok (tt, m1) ->
  resizeColumn id w2 m1 = resizeColumn id w2 m.
Proof.
  unfold resizeColumn. intros H1.
  apply update_column_inv in H1 as (i & col & Hf & ->).
  pose proof Hf as Hfind. apply list_find_Some in Hf as (Hi & _ & _).
  rewrite (update_column_run id _ _ _ i (set_width (Some w1) col)).
  - rewrite (update_column_run id _ _ m i col Hfind). simpl.
    now rewrite list_insert_insert_eq.
  - simpl. rewrite (list_find_insert_key id _ i col); [|exact Hi|reflexivity].
    rewrite Hfind. now rewrite decide_True.
Qed.

Lemma resizeColumn_last_width_wins_witness :
  exists m1,
    resizeColumn "name" (Pixels 10) Sample.busy = Ok (tt, m1) /\
    resizeColumn "name" (Pixels 20) m1 = resizeColumn "name" (Pixels 20) Sample.busy.
Proof.
  eexists. split; [reflexivity|].
  apply (resizeColumn_last_width_wins "name" (Pixels 10) (Pixels 20) Sample.busy).
  reflexivity.
Defined.

(** X6. Width and visibility are independent: a [resizeColumn] followed by
    a [toggleColumnVisibility], on the same column or on two, gives the
    state that the two calls give in the other order. *)
Theorem resizeColumn_toggleColumnVisibility_commute {V : Type}
    (id1 id2 : string) (w : Width) (m m1 m2 : Manager V) :
  resizeColumn id1 w m = Ok (tt, m1) ->
  toggleColumnVisibility id2 m1 = Ok (tt, m2) ->
  exists m1',
    toggleColumnVisibility id2 m = Ok (tt, m1') /\
    resizeColumn id1 w m1' = Ok (tt, m2).
Proof.
  unfold resizeColumn. rewrite !toggleColumnVisibility_as_update. intros H1 H2.
  apply update_column_inv in H1 as (i1 & c1 & Hf1 & ->).
  apply update_column_inv in H2 as (i2 & c2' & Hf2 & ->).
  pose proof Hf1 as Hfind1. apply list_find_Some in Hf1 as (Hi1 & _ & _).
  simpl in Hf2.
  rewrite (list_find_insert_key id2 _ i1 c1) in Hf2; [|exact Hi1|reflexivity].
  destruct (list_find (fun c => key c = id2) (columns m)) as [[j c2]|] eqn:Hfind2;
    [|discriminate].
  injection Hf2 as -> <-.
  pose proof Hfind2 as Hf2. apply list_find_Some in Hf2 as (Hi2 & _ & _).
  eexists.
  split; [apply (update_column_run id2 _ _ m i2 c2 Hfind2)|].
  erewrite update_column_run.
  2:{ simpl. rewrite (list_find_insert_key id1 _ i2 c2); [|exact Hi2|reflexivity].
      rewrite Hfind1. reflexivity. }
  simpl. unfold with_columns. simpl. do 2 f_equal. f_equal.
  destruct (decide (i2 = i1)) as [->|Hne].
  - rewrite decide_True by reflexivity.
    assert (c2 = c1) by congruence. subst c2.
    now rewrite !list_insert_insert_eq.
  - rewrite decide_False by congruence.
    now rewrite list_insert_insert_ne.
Qed.

Lemma resizeColumn_toggleColumnVisibility_commute_witness :
  exists m1 m2 m1',
    resizeColumn "name" (Pixels 10) Sample.busy = Ok (tt, m1) /\
    toggleColumnVisibility "name" m1 = Ok (tt, m2) /\
    toggleColumnVisibility "name" Sample.busy = Ok (tt, m1') /\
    resizeColumn "name" (Pixels 10) m1' = Ok (tt, m2).
Proof.
  eexists _, _.
  destruct (resizeColumn_toggleColumnVisibility_commute "name" "name" (Pixels 10)
              Sample.busy _ _ eq_refl eq_refl) as (m1' & Ht & Hr).
  exists m1'. split; [reflexivity|]. split; [reflexivity|]. split; assumption.
Defined.

(** ** What each event leaves alone *)

Section Frames.
Context {V : Type} `{!Stringify V} `{LC : !Lowercase}.
Implicit Types (m : Manager V) (props : Props) (ev : Event V).

(** The columns after an event: untouched, back to the defaults, or one
    column replaced by one with the same fixed fields. *)
Lemma handle_columns props ev m m' :
  handle props ev m = Ok (tt, m') ->
  columns m' = columns m \/
  columns m' = computeInitialColumns (defaultColumns props) \/
  exists (i : nat) col col',
    columns m !! i = Some col /\ fixed_fields col' = fixed_fields col /\
    columns m' = <[i := col']> (columns m).
Proof.
  intros H. destruct ev; simpl in H.
  - rewrite reset_run in H. injection H as <-. auto.
  - apply update_column_inv in H as (i & col & Hf & ->).
    apply list_find_Some in Hf as (Hi & _ & _). right; right.
    exists i, col, (set_width (Some width0) col). auto.
  - destruct (sortColumn_total key0 m) as (m1 & H1 & _).
    unfold sortColumn in H. unfold_monad. simpl in H.
    repeat case_decide; injection H as <-; auto.
  - apply update_column_inv in H as (i & col & Hf & ->).
    apply list_find_Some in Hf as (Hi & _ & _). right; right.
    exists i, col, (flip_visible col). auto.
  - unfold applyFilter in H. unfold_monad. simpl in H.
    case_decide; injection H as <-; auto.
  - apply selectItem_inv in H as (n & _ & ->). auto.
  - unfold bind in H. destruct (onKeyDown props e_key m) as [[h m1]|e] eqn:Hkd; [|discriminate].
    unfold ret in H. injection H as <-.
    apply onKeyDown_inv in Hkd as [-> | [n ->]]; auto.
  - apply selectItem_inv in H as (n & _ & ->). auto.
  - unfold_monad. injection H as <-. auto.
  - unfold_monad. injection H as <-. auto.
Qed.

Lemma computeInitialColumns_fixed_fields (cs : list DataTableColumn) :
  fixed_fields <$> computeInitialColumns cs = fixed_fields <$> cs.
Proof.
  unfold computeInitialColumns. induction cs as [|c cs IH]; simpl; [reflexivity|].
  f_equal. exact IH.
Qed.

Lemma reachable_fixed_fields props m :
  reachable props m ->
  fixed_fields <$> columns m = fixed_fields <$> defaultColumns props.
Proof.
  intros (ds & vr & evs & m0 & Hm & Hrun).
  eapply (handle_all_invariant props
            (fun m => fixed_fields <$> columns m = fixed_fields <$> defaultColumns props));
    [| exact Hrun |].
  - intros ev m1 m2 H HP.
    destruct (handle_columns _ _ _ _ H) as [-> | [-> | (i & col & col' & Hi & Hf & ->)]].
    + exact HP.
    + apply computeInitialColumns_fixed_fields.
    + now rewrite (insert_same_projection fixed_fields _ _ col).
  - rewrite mount_run in Hm. injection Hm as <-. apply computeInitialColumns_fixed_fields.
Qed.

(** The sorting and the sort configuration after an event that is neither
    [reset] nor [sortColumn]. *)
Lemma handle_sort_config props ev m m' :
  handle props ev m = Ok (tt, m') ->
  ev <> DoReset -> (forall k, ev <> DoSortColumn k) ->
  sorting m' = sorting m /\
  DataSource.sortBy (dataSource m') = DataSource.sortBy (dataSource m) /\
  DataSource.reversed (dataSource m') = DataSource.reversed (dataSource m).
Proof.
  intros H Hr Hs. destruct ev; simpl in H.
  - contradiction.
  - apply update_column_inv in H as (i & col & _ & ->). auto.
  - now destruct (Hs key0).
  - apply update_column_inv in H as (i & col & _ & ->). auto.
  - unfold applyFilter in H. unfold_monad. simpl in H.
    case_decide; injection H as <-; auto.
  - apply selectItem_inv in H as (n & _ & ->). auto.
  - unfold bind in H. destruct (onKeyDown props e_key m) as [[h m1]|e] eqn:Hkd; [|discriminate].
    unfold ret in H. injection H as <-.
    apply onKeyDown_inv in Hkd as [-> | [n ->]]; auto.
  - apply selectItem_inv in H as (n & _ & ->). auto.
  - unfold_monad. injection H as <-. auto.
  - unfold_monad. injection H as <-. auto.
Qed.

Lemma sortColumn_keeps_sorting_matches (k : string) m m' :
  sortColumn k m = Ok (tt, m') ->
  sorting_matches_source m -> sorting_matches_source m'.
Proof.
  unfold sorting_matches_source. intros H Hm.
  destruct (decide (sorting_key <$> sorting m = Some k)) as [Hk|Hk].
  - destruct (sorting m) as [[k' []]|] eqn:Hs; simpl in Hk; [| |discriminate];
      injection Hk as Hk; subst k'.
    + rewrite (sortColumn_same_key_up k m Hs) in H. injection H as <-. simpl. auto.
    + rewrite (sortColumn_same_key_down k m Hs) in H. injection H as <-. simpl in *.
      destruct Hm as [Hm _]. auto.
  - rewrite (sortColumn_other_key k m Hk) in H. injection H as <-. simpl. auto.
Qed.

Lemma handle_keeps_sorting_matches props ev m m' :
  handle props ev m = Ok (tt, m') ->
  sorting_matches_source m -> sorting_matches_source m'.
Proof.
  intros H Hm.
  destruct ev;
    try (destruct (handle_sort_config _ _ _ _ H) as (Hs & Hb & Hv);
         [discriminate | discriminate |];
         unfold sorting_matches_source; rewrite Hs, Hb, Hv; exact Hm).
  - simpl in H. rewrite reset_run in H. injection H as <-. split; reflexivity.
  - simpl in H. eapply sortColumn_keeps_sorting_matches; eauto.
Qed.

End Frames.

(** X7. [sortColumn] accepts any key and never raises; whatever the key
    and the state, it leaves the columns, the selection, the search value,
    the renderer and the trace of [onSelect] calls as they were, and the
    only methods of the data source it calls are [setSortBy] and
    [setReversed]: never [setFilter], never [reset]. *)
Theorem sortColumn_only_touches_sorting {V : Type} (k : string) (m : Manager V) :
  exists m' calls,
    sortColumn k m = Ok (tt, m') /\
    columns m' = columns m /\ selection m' = selection m /\
    searchValue m' = searchValue m /\ onSelectCalls m' = onSelectCalls m /\
    virtualizerRef m' = virtualizerRef m /\
    DataSource.calls (dataSource m') = (DataSource.calls (dataSource m) ++ calls)%list /\
    calls <> [] /\
    Forall (fun c => (exists key, c = DataSource.CallSetSortBy key) \/
                     (exists b, c = DataSource.CallSetReversed b)) calls.
Proof.
  destruct (decide (sorting_key <$> sorting m = Some k)) as [Hk|Hk].
  - destruct (sorting m) as [[k' []]|] eqn:Hs; simpl in Hk; [| |discriminate];
      injection Hk as Hk; subst k'.
    + rewrite (sortColumn_same_key_up k m Hs).
      eexists; exists [DataSource.CallSetSortBy None; DataSource.CallSetReversed false].
      split; [reflexivity|]. simpl. rewrite <- app_assoc.
      repeat split; try discriminate.
      repeat first [apply Forall_nil_2 | apply Forall_cons_2; [eauto|]].
    + rewrite (sortColumn_same_key_down k m Hs).
      eexists; exists [DataSource.CallSetReversed true].
      split; [reflexivity|]. simpl.
      repeat split; try discriminate.
      repeat first [apply Forall_nil_2 | apply Forall_cons_2; [eauto|]].
  - rewrite (sortColumn_other_key k m Hk).
    eexists; exists [DataSource.CallSetSortBy (Some k); DataSource.CallSetReversed false].
    split; [reflexivity|]. simpl. rewrite <- app_assoc.
    repeat split; try discriminate.
    repeat first [apply Forall_nil_2 | apply Forall_cons_2; [eauto|]].
Qed.

(** X8. From any state and for any key, the sorting cycles with period
    three: after four consecutive [sortColumn(k)] it is what it was after
    the first. *)
Theorem sortColumn_period_three {V : Type} (k : string) (m : Manager V) :
  exists m1 m2 m3 m4,
    sortColumn k m = Ok (tt, m1) /\ sortColumn k m1 = Ok (tt, m2) /\
    sortColumn k m2 = Ok (tt, m3) /\ sortColumn k m3 = Ok (tt, m4) /\
    sorting m4 = sorting m1 /\
    sorting m1 <> sorting m2 /\ sorting m2 <> sorting m3 /\ sorting m3 <> sorting m1.
Proof.
  destruct (decide (sorting_key <$> sorting m = Some k)) as [Hk|Hk].
  - destruct (sorting m) as [[k' []]|] eqn:Hs; simpl in Hk; [| |discriminate];
      injection Hk as Hk; subst k'.
    + eexists _, _, _, _.
      split; [apply (sortColumn_same_key_up k m Hs)|].
      split; [apply sortColumn_other_key; simpl; discriminate|].
      split; [apply sortColumn_same_key_down; reflexivity|].
      split; [apply sortColumn_same_key_up; reflexivity|].
      simpl. repeat split; discriminate.
    + eexists _, _, _, _.
      split; [apply (sortColumn_same_key_down k m Hs)|].
      split; [apply sortColumn_same_key_up; reflexivity|].
      split; [apply sortColumn_other_key; simpl; discriminate|].
      split; [apply sortColumn_same_key_down; reflexivity|].
      simpl. repeat split; discriminate.
  - eexists _, _, _, _.
    split; [apply (sortColumn_other_key k m Hk)|].
    split; [apply sortColumn_same_key_down; reflexivity|].
    split; [apply sortColumn_same_key_up; reflexivity|].
    split; [apply sortColumn_other_key; simpl; discriminate|].
    simpl. repeat split; discriminate.
Qed.

(** X9. If the data source handed to the table has no sort key and is not
    reversed, then in every state the table reaches the sorting and the
    data source agree: no sorting goes with no sort key and not reversed,
    a sorting on [k] goes with sort key [k], reversed exactly when the
    direction is [up]. *)
Theorem sorting_agrees_with_data_source {V : Type} `{!Stringify V} `{LC : !Lowercase}
    (props : Props) (ds : DataSource.t (gmap string V)) (virtualizer : option nat)
    (evs : list (Event V)) (m0 m : Manager V) :
  DataSource.sortBy ds = None -> DataSource.reversed ds = false ->
  mount props ds virtualizer = Ok (tt, m0) ->
  handle_all props evs m0 = Ok (tt, m) ->
  sorting_matches_source m.
Proof.
  intros Hs Hr Hm Hrun.
  eapply (handle_all_invariant props sorting_matches_source);
    [apply handle_keeps_sorting_matches | exact Hrun |].
  rewrite mount_run in Hm. injection Hm as <-. split; assumption.
Qed.

Lemma sorting_agrees_with_data_source_witness :
  sorting Sample.busy = Some {| sorting_key := "name"; direction := down |} /\
  sorting_matches_source Sample.busy.
Proof.
  split; [reflexivity|].
  apply (sorting_agrees_with_data_source Sample.props
           (Sample.source (Sample.rows 3)) (Some 5%nat) Sample.busy_events
           (Sample.mounted (Sample.rows 3) 5));
    [reflexivity | reflexivity | reflexivity | exact Sample_busy_run].
Defined.

(** X10. Only [selectItem] moves the selection: [reset], [resizeColumn],
    [sortColumn], [toggleColumnVisibility], a new search value and a change
    of the output or of the renderer leave the selection where it is, in
    range or not, and do not call [onSelect]. *)
Theorem selection_moves_only_through_selectItem {V : Type} `{!Stringify V} `{LC : !Lowercase}
    (props : Props) (ev : Event V) (m m' : Manager V) :
  is_selection_event ev = false ->
  handle props ev m = Ok (tt, m') ->
  selection m' = selection m /\ onSelectCalls m' = onSelectCalls m.
Proof.
  intros Hev H. destruct ev; try discriminate Hev; simpl in H.
  - rewrite reset_run in H. injection H as <-. auto.
  - apply update_column_inv in H as (i & col & _ & ->). auto.
  - unfold sortColumn in H. unfold_monad. simpl in H.
    repeat case_decide; injection H as <-; auto.
  - apply update_column_inv in H as (i & col & _ & ->). auto.
  - unfold applyFilter in H. unfold_monad. simpl in H.
    case_decide; injection H as <-; auto.
  - unfold_monad. injection H as <-. auto.
  - unfold_monad. injection H as <-. auto.
Qed.

Lemma selection_moves_only_through_selectItem_witness :
  exists m1,
    handle Sample.props (OutputChanged (Sample.rows 3))
      (Sample.mounted_at (Sample.rows 10) 5 7) = Ok (tt, m1) /\
    output_length m1 = 3 /\ selection m1 = 7 /\
    onSelectCalls m1 = onSelectCalls (Sample.mounted_at (Sample.rows 10) 5 7).
Proof.
  eexists. split; [reflexivity|]. split; [reflexivity|].
  apply (selection_moves_only_through_selectItem Sample.props
           (OutputChanged (Sample.rows 3))
           (Sample.mounted_at (Sample.rows 10) 5 7) _ eq_refl eq_refl).
Defined.

(** ** Keyboard navigation: the other keys *)

Section KeyDownRuns.
Context {V : Type}.
Implicit Types (m : Manager V) (props : Props).

Lemma onKeyDown_ArrowUp props m :
  onKeyDown props "ArrowUp" m =
    Ok (true, selected props (if decide (selection m > 0) then selection m - 1 else 0) m).
Proof.
  unfold onKeyDown.
  destruct (decide ("ArrowUp" = "ArrowUp")) as [_|E]; [|now destruct E].
  unfold bind at 1. now rewrite (selectItem_run _ _ _ _ eq_refl).
Qed.

Lemma onKeyDown_Home props m :
  onKeyDown props "Home" m = Ok (true, selected props 0 m).
Proof.
  unfold onKeyDown.
  destruct (decide ("Home" = "ArrowUp")) as [E|_]; [discriminate E|].
  destruct (decide ("Home" = "ArrowDown")) as [E|_]; [discriminate E|].
  destruct (decide ("Home" = "Home")) as [_|E]; [|now destruct E].
  unfold bind at 1. now rewrite (selectItem_run _ _ _ _ eq_refl).
Qed.

Lemma onKeyDown_PageDown props m (v : nat) :
  virtualizerRef m = Some v ->
  onKeyDown props "PageDown" m =
    Ok (true,
        selected props (Z.min (output_length m - 1) (selection m + Z.of_nat v - 1)) m).
Proof.
  intros Hv. unfold onKeyDown.
  destruct (decide ("PageDown" = "ArrowUp")) as [E|_]; [discriminate E|].
  destruct (decide ("PageDown" = "ArrowDown")) as [E|_]; [discriminate E|].
  destruct (decide ("PageDown" = "Home")) as [E|_]; [discriminate E|].
  destruct (decide ("PageDown" = "End")) as [E|_]; [discriminate E|].
  destruct (decide ("PageDown" = "PageDown")) as [_|E]; [|now destruct E].
  unfold bind at 1.
  rewrite (selectItem_run _ _ _
             (Z.min (output_length m - 1) (selection m + Z.of_nat v - 1)));
    [reflexivity|].
  unfold virtualItems_length. now rewrite Hv.
Qed.

Lemma onKeyDown_paging_without_renderer props m :
  virtualizerRef m = None ->
  onKeyDown props "PageDown" m = Throw (TypeError "Cannot read properties of undefined") /\
  onKeyDown props "PageUp" m = Throw (TypeError "Cannot read properties of undefined").
Proof.
  intros Hv. split; unfold onKeyDown.
  - destruct (decide ("PageDown" = "ArrowUp")) as [E|_]; [discriminate E|].
    destruct (decide ("PageDown" = "ArrowDown")) as [E|_]; [discriminate E|].
    destruct (decide ("PageDown" = "Home")) as [E|_]; [discriminate E|].
    destruct (decide ("PageDown" = "End")) as [E|_]; [discriminate E|].
    destruct (decide ("PageDown" = "PageDown")) as [_|E]; [|now destruct E].
    unfold bind at 1. rewrite (selectItem_throws _ _ _ (TypeError "Cannot read properties of undefined"));
      [reflexivity|].
    unfold virtualItems_length. now rewrite Hv.
  - destruct (decide ("PageUp" = "ArrowUp")) as [E|_]; [discriminate E|].
    destruct (decide ("PageUp" = "ArrowDown")) as [E|_]; [discriminate E|].
    destruct (decide ("PageUp" = "Home")) as [E|_]; [discriminate E|].
    destruct (decide ("PageUp" = "End")) as [E|_]; [discriminate E|].
    destruct (decide ("PageUp" = "PageDown")) as [E|_]; [discriminate E|].
    destruct (decide ("PageUp" = "PageUp")) as [_|E]; [|now destruct E].
    unfold bind at 1. rewrite (selectItem_throws _ _ _ (TypeError "Cannot read properties of undefined"));
      [reflexivity|].
    unfold virtualItems_length. now rewrite Hv.
Qed.

Lemma navigation_keys_cases (e_key : string) :
  e_key ∈ navigation_keys ->
  e_key = "ArrowUp" \/ e_key = "ArrowDown" \/ e_key = "Home" \/
  e_key = "End" \/ e_key = "PageDown" \/ e_key = "PageUp".
Proof.
  unfold navigation_keys. rewrite !elem_of_cons, elem_of_nil. tauto.
Qed.

Lemma onKeyDown_other_key props m (e_key : string) :
  e_key ∉ navigation_keys -> onKeyDown props e_key m = Ok (false, m).
Proof.
  unfold navigation_keys. rewrite !not_elem_of_cons. intros (?&?&?&?&?&?&_).
  unfold onKeyDown. repeat (case_decide; [contradiction|]). reflexivity.
Qed.

Lemma selected_selection props (n : Z) m : selection (selected props n m) = n.
Proof. reflexivity. Qed.

Lemma itemAt_last m :
  itemAt m (output_length m - 1) = last (DataSource.output (dataSource m)).
Proof.
  unfold itemAt, output_length, DataSource.getItem.
  rewrite last_lookup.
  destruct (decide (0 <= Z.of_nat (List.length (DataSource.output (dataSource m))) - 1
                    < Z.of_nat (List.length (DataSource.output (dataSource m)))))
    as [Hin|Hout].
  - destruct (decide _) as [_|Hneg]; [|lia]. f_equal. lia.
  - destruct (DataSource.output (dataSource m)) as [|x l]; [reflexivity|].
    simpl in Hout. lia.
Qed.

End KeyDownRuns.

(** X11. [onKeyDown] handles exactly the six navigation keys.  Any other
    key returns [handled = false] and leaves the state alone.  A navigation
    key that returns has [handled = true] and went through [selectItem]
    once: [onSelect], when passed, was called exactly once, with the item
    at the new index and that index, also when the index did not change. *)
Theorem onKeyDown_handles_navigation_keys_only {V : Type}
    (props : Props) (e_key : string) (m : Manager V) :
  (e_key ∉ navigation_keys -> onKeyDown props e_key m = Ok (false, m)) /\
  (forall handled m',
     e_key ∈ navigation_keys ->
     onKeyDown props e_key m = Ok (handled, m') ->
     handled = true /\
     m' = selected props (selection m') m /\
     onSelectCalls m' =
       (onSelectCalls m ++
        (if onSelect props
         then [(itemAt m (selection m'), selection m')] else []))%list).
Proof.
  split; [apply onKeyDown_other_key|].
  intros handled m' Hkey H.
  assert (Hsel : exists n, handled = true /\ m' = selected props n m).
  { unfold onKeyDown in H.
    repeat case_decide;
      try (unfold bind at 1 in H;
           match type of H with
           | context [selectItem ?p ?u ?m] =>
               destruct (selectItem p u m) as [[[] m1]|e] eqn:Hs; [|discriminate];
               apply selectItem_inv in Hs as (n & _ & ->);
               unfold ret in H; injection H as <- <-; eauto
           end).
    apply navigation_keys_cases in Hkey. tauto. }
  destruct Hsel as (n & -> & ->). auto.
Qed.

Lemma onKeyDown_handles_navigation_keys_only_witness :
  onKeyDown Sample.props "Enter" Sample.busy = Ok (false, Sample.busy) /\
  exists m',
    onKeyDown Sample.props "ArrowUp" (Sample.mounted_at (Sample.rows 3) 5 0)
      = Ok (true, m') /\
    selection m' = 0 /\
    onSelectCalls m' = [(Some Sample.alice, 0); (Some Sample.alice, 0)].
Proof.
  destruct (onKeyDown_handles_navigation_keys_only Sample.props "Enter" Sample.busy)
    as [Hother _].
  split.
  - apply Hother. unfold navigation_keys. rewrite !not_elem_of_cons.
    repeat split; try discriminate. apply not_elem_of_nil.
  - destruct (onKeyDown_handles_navigation_keys_only Sample.props "ArrowUp"
                (Sample.mounted_at (Sample.rows 3) 5 0)) as [_ Hnav].
    eexists. split; [reflexivity|]. split; [reflexivity|].
    eapply Hnav; [|reflexivity].
    apply elem_of_cons; now left.
Defined.

(** X12. ArrowUp never raises and updates the selection through
    [max(idx - 1, 0)]: from no selection, or from row 0, it selects row 0.
    The new index is never negative, so it is out of range when the output
    is empty, and [onSelect] is then given [undefined]. *)
Theorem ArrowUp_moves_back_to_zero {V : Type} (props : Props) (m : Manager V) :
  exists m',
    onKeyDown props "ArrowUp" m = Ok (true, m') /\
    m' = selected props (selection m') m /\
    selection m' = Z.max (selection m - 1) 0 /\
    0 <= selection m' /\
    (output_length m = 0 -> itemAt m (selection m') = None).
Proof.
  eexists. split; [apply onKeyDown_ArrowUp|]. simpl.
  split; [reflexivity|]. split; [case_decide; lia|]. split; [case_decide; lia|].
  intros HL. unfold itemAt. rewrite HL. case_decide; [lia | reflexivity].
Qed.

Lemma ArrowUp_moves_back_to_zero_witness :
  exists m',
    onKeyDown Sample.props "ArrowUp" (Sample.mounted [] 0) = Ok (true, m') /\
    selection m' = 0 /\ onSelectCalls m' = [(None, 0)].
Proof.
  destruct (ArrowUp_moves_back_to_zero Sample.props (Sample.mounted [] 0))
    as (m' & Hrun & Hm' & Hsel & _ & Hnone).
  exists m'. split; [exact Hrun|]. split; [exact Hsel|].
  rewrite Hm'. simpl. unfold onSelectTrace. simpl.
  rewrite (Hnone eq_refl). now rewrite Hsel.
Defined.

(** X13. With [v] rows in the renderer's window, PageDown updates the
    selection through [min(output.length - 1, idx + v - 1)], which never
    exceeds [output.length - 1]; with an empty window it moves the
    selection one row back, below -1 when nothing was selected. *)
Theorem PageDown_moves_forward_by_window {V : Type}
    (props : Props) (m : Manager V) (v : nat) :
  virtualizerRef m = Some v ->
  exists m',
    onKeyDown props "PageDown" m = Ok (true, m') /\
    m' = selected props (selection m') m /\
    selection m' = Z.min (output_length m - 1) (selection m + Z.of_nat v - 1) /\
    selection m' <= output_length m - 1 /\
    (v = 0%nat -> selection m <= output_length m -> selection m' = selection m - 1).
Proof.
  intros Hv. eexists. split; [apply (onKeyDown_PageDown props m v Hv)|]. simpl.
  repeat split; [lia|]. intros -> Hle. lia.
Qed.

Lemma PageDown_moves_forward_by_window_witness :
  (exists m',
     onKeyDown Sample.props "PageDown" (Sample.mounted_at (Sample.rows 20) 5 3)
       = Ok (true, m') /\ selection m' = 7) /\
  (exists m',
     onKeyDown Sample.props "PageDown" (Sample.mounted [] 0) = Ok (true, m') /\
     selection m' = -2).
Proof.
  split.
  - destruct (PageDown_moves_forward_by_window Sample.props
                (Sample.mounted_at (Sample.rows 20) 5 3) 5 eq_refl)
      as (m' & Hrun & _ & Hsel & _).
    exists m'. split; [exact Hrun | exact Hsel].
  - destruct (PageDown_moves_forward_by_window Sample.props
                (Sample.mounted [] 0) 0 eq_refl)
      as (m' & Hrun & _ & _ & _ & Hback).
    exists m'. split; [exact Hrun|]. apply Hback; [reflexivity|].
    unfold output_length. simpl. lia.
Defined.

(** X14. While the renderer's [virtualizerRef.current] is undefined,
    PageDown and PageUp raise a [TypeError]; the four other navigation keys
    do not need the renderer and never raise. *)
Theorem paging_needs_the_renderer {V : Type} (props : Props) (m : Manager V) :
  virtualizerRef m = None ->
  onKeyDown props "PageDown" m = Throw (TypeError "Cannot read properties of undefined") /\
  onKeyDown props "PageUp" m = Throw (TypeError "Cannot read properties of undefined") /\
  (forall e_key, e_key ∈ ["ArrowUp"; "ArrowDown"; "Home"; "End"] ->
     exists m', onKeyDown props e_key m = Ok (true, m')).
Proof.
  intros Hv. destruct (onKeyDown_paging_without_renderer props m Hv) as [Hd Hu].
  split; [exact Hd|]. split; [exact Hu|].
  intros e_key. rewrite !elem_of_cons, elem_of_nil.
  intros [-> | [-> | [-> | [-> | []]]]]; eexists.
  - apply onKeyDown_ArrowUp.
  - apply onKeyDown_ArrowDown.
  - apply onKeyDown_Home.
  - apply onKeyDown_End.
Qed.

Lemma paging_needs_the_renderer_witness :
  onKeyDown Sample.props "PageDown"
    (initial Sample.props (Sample.source (Sample.rows 3)) None)
    = Throw (TypeError "Cannot read properties of undefined").
Proof.
  apply (paging_needs_the_renderer Sample.props
           (initial Sample.props (Sample.source (Sample.rows 3)) None)).
  reflexivity.
Defined.

(** X15. On a table with at least one row in the output and one in the
    renderer's window, navigation keys keep the selection in range: from
    an index in [[-1, output.length - 1]] every navigation key returns,
    with the new index in that interval again; the new index is an
    existing row unless the key is PageDown pressed with nothing
    selected. *)
Theorem navigation_stays_in_range {V : Type}
    (props : Props) (e_key : string) (m : Manager V) (v : nat) :
  e_key ∈ navigation_keys ->
  virtualizerRef m = Some v -> (1 <= v)%nat ->
  1 <= output_length m ->
  -1 <= selection m <= output_length m - 1 ->
  exists m',
    onKeyDown props e_key m = Ok (true, m') /\
    output_length m' = output_length m /\
    -1 <= selection m' <= output_length m - 1 /\
    (e_key <> "PageDown" \/ 0 <= selection m -> 0 <= selection m').
Proof.
  intros Hkey Hv Hv1 HL Hsel.
  apply navigation_keys_cases in Hkey
    as [-> | [-> | [-> | [-> | [-> | ->]]]]]; eexists.
  - split; [apply onKeyDown_ArrowUp|]. simpl.
    split; [reflexivity|]. case_decide; split; lia.
  - split; [apply onKeyDown_ArrowDown|]. simpl.
    split; [reflexivity|]. case_decide; split; lia.
  - split; [apply onKeyDown_Home|]. simpl.
    split; [reflexivity|]. split; lia.
  - split; [apply onKeyDown_End|]. simpl.
    split; [reflexivity|]. split; lia.
  - split; [apply (onKeyDown_PageDown props m v Hv)|]. simpl.
    split; [reflexivity|]. split; [lia|].
    intros [Hne | Hpos]; [now destruct Hne | lia].
  - split; [apply (onKeyDown_PageUp props m v Hv)|]. simpl.
    split; [reflexivity|]. split; lia.
Qed.

Lemma navigation_stays_in_range_witness :
  exists m',
    onKeyDown Sample.props "PageDown" (Sample.mounted_at (Sample.rows 3) 5 1)
      = Ok (true, m') /\
    -1 <= selection m' <= 2 /\ 0 <= selection m'.
Proof.
  destruct (navigation_stays_in_range Sample.props "PageDown"
              (Sample.mounted_at (Sample.rows 3) 5 1) 5)
    as (m' & Hrun & _ & Hrange & Hpos).
  - unfold navigation_keys. rewrite !elem_of_cons. tauto.
  - reflexivity.
  - lia.
  - unfold output_length. simpl. lia.
  - unfold output_length. simpl. lia.
  - exists m'. split; [exact Hrun|]. split; [exact Hrange|].
    apply Hpos. right. simpl. lia.
Defined.

(** X16. PageDown and PageUp are not inverse to each other: the first adds
    [v - 1] and the second subtracts [v + 1].  When PageDown does not hit
    the end of the output, PageDown followed by PageUp ends on
    [max(0, idx - 2)], two rows above the start. *)
Theorem PageDown_then_PageUp_loses_two_rows {V : Type}
    (props : Props) (m : Manager V) (v : nat) :
  virtualizerRef m = Some v ->
  selection m + Z.of_nat v - 1 <= output_length m - 1 ->
  exists m1 m2,
    onKeyDown props "PageDown" m = Ok (true, m1) /\
    onKeyDown props "PageUp" m1 = Ok (true, m2) /\
    selection m1 = selection m + Z.of_nat v - 1 /\
    selection m2 = Z.max 0 (selection m - 2).
Proof.
  intros Hv Hfit. eexists _, _.
  split; [apply (onKeyDown_PageDown props m v Hv)|].
  split; [apply (onKeyDown_PageUp _ _ v); exact Hv|].
  simpl. split; lia.
Qed.

Lemma PageDown_then_PageUp_loses_two_rows_witness :
  exists m1 m2,
    onKeyDown Sample.props "PageDown" (Sample.mounted_at (Sample.rows 20) 5 10)
      = Ok (true, m1) /\
    onKeyDown Sample.props "PageUp" m1 = Ok (true, m2) /\
    selection m1 = 14 /\ selection m2 = 8.
Proof.
  destruct (PageDown_then_PageUp_loses_two_rows Sample.props
              (Sample.mounted_at (Sample.rows 20) 5 10) 5 eq_refl)
    as (m1 & m2 & H1 & H2 & Hs1 & Hs2).
  - unfold output_length. simpl. lia.
  - exists m1, m2. auto.
Defined.

(** X17. End never raises and selects [output.length - 1]; [onSelect] is
    given the last row of the output.  On an empty output that is index -1
    with [undefined]: End clears the selection. *)
Theorem End_selects_last_row {V : Type} (props : Props) (m : Manager V) :
  exists m',
    onKeyDown props "End" m = Ok (true, m') /\
    m' = selected props (selection m') m /\
    selection m' = output_length m - 1 /\
    itemAt m (selection m') = last (DataSource.output (dataSource m)) /\
    (DataSource.output (dataSource m) = [] ->
     selection m' = -1 /\ itemAt m (selection m') = None).
Proof.
  eexists. split; [apply onKeyDown_End|]. simpl.
  split; [reflexivity|]. split; [reflexivity|].
  split; [apply itemAt_last|].
  intros Ho. split.
  - unfold output_length. now rewrite Ho.
  - rewrite itemAt_last. now rewrite Ho.
Qed.

Lemma End_selects_last_row_witness :
  exists m',
    onKeyDown Sample.props "End" (Sample.mounted [] 0) = Ok (true, m') /\
    selection m' = -1 /\ itemAt (Sample.mounted [] 0) (selection m') = None.
Proof.
  destruct (End_selects_last_row Sample.props (Sample.mounted [] 0))
    as (m' & Hrun & _ & _ & _ & Hempty).
  exists m'. split; [exact Hrun|]. apply Hempty. reflexivity.
Defined.

(** X18. With a renderer in place, ArrowUp, Home and PageUp end with a
    scroll request for the row they selected unless row 0 was selected
    already: they never select a negative index, and they leave the
    selection unchanged, so that the effect is skipped, exactly when it was
    0.  End on an empty output selects -1 and requests no scroll. *)
Theorem upward_keys_scroll_unless_at_top {V : Type}
    (props : Props) (e_key : string) (m : Manager V) (v : nat) :
  virtualizerRef m = Some v ->
  (e_key ∈ ["ArrowUp"; "Home"; "PageUp"] ->
   exists m',
     onKeyDown props e_key m = Ok (true, m') /\
     (selection m' = selection m <-> selection m = 0) /\
     scrollSelectionIntoView (selection m) m' =
       (if decide (selection m = 0) then None else Some (selection m'))) /\
  (output_length m = 0 ->
   exists m',
     onKeyDown props "End" m = Ok (true, m') /\
     scrollSelectionIntoView (selection m) m' = None).
Proof.
  intros Hv. split.
  - rewrite !elem_of_cons, elem_of_nil.
    intros [-> | [-> | [-> | []]]]; eexists.
    + split; [apply onKeyDown_ArrowUp|].
      unfold scrollSelectionIntoView. cbn [selected selection virtualizerRef].
      rewrite Hv. split; [destruct (decide (selection m > 0)); lia|].
      repeat case_decide; try reflexivity; lia.
    + split; [apply onKeyDown_Home|].
      unfold scrollSelectionIntoView. cbn [selected selection virtualizerRef].
      rewrite Hv. split; [lia|].
      repeat case_decide; try reflexivity; lia.
    + split; [apply (onKeyDown_PageUp props m v Hv)|].
      unfold scrollSelectionIntoView. cbn [selected selection virtualizerRef].
      rewrite Hv. split; [lia|].
      repeat case_decide; try reflexivity; lia.
  - intros HL. eexists. split; [apply onKeyDown_End|].
    unfold scrollSelectionIntoView. cbn [selected selection virtualizerRef].
    rewrite HL. repeat case_decide; try reflexivity; lia.
Qed.

Lemma upward_keys_scroll_unless_at_top_witness :
  (exists m',
     onKeyDown Sample.props "PageUp" (Sample.mounted (Sample.rows 3) 5) = Ok (true, m') /\
     scrollSelectionIntoView (-1) m' = Some 0) /\
  (exists m',
     onKeyDown Sample.props "Home" (Sample.mounted_at (Sample.rows 3) 5 0) = Ok (true, m') /\
     scrollSelectionIntoView 0 m' = None) /\
  (exists m',
     onKeyDown Sample.props "End" (Sample.mounted [] 0) = Ok (true, m') /\
     scrollSelectionIntoView (-1) m' = None).
Proof.
  split; [|split].
  - destruct (upward_keys_scroll_unless_at_top Sample.props "PageUp"
                (Sample.mounted (Sample.rows 3) 5) 5 eq_refl) as [Hup _].
    destruct Hup as (m' & Hrun & _ & Hscroll); [rewrite !elem_of_cons; tauto|].
    exists m'. split; [exact Hrun|].
    rewrite (onKeyDown_PageUp Sample.props (Sample.mounted (Sample.rows 3) 5) 5 eq_refl)
      in Hrun.
    injection Hrun as <-.
    exact Hscroll.
  - destruct (upward_keys_scroll_unless_at_top Sample.props "Home"
                (Sample.mounted_at (Sample.rows 3) 5 0) 5 eq_refl) as [Hup _].
    destruct Hup as (m' & Hrun & _ & Hscroll); [rewrite !elem_of_cons; tauto|].
    exists m'. split; [exact Hrun | exact Hscroll].
  - destruct (upward_keys_scroll_unless_at_top Sample.props "End"
                (Sample.mounted [] 0) 0 eq_refl) as [_ Hend].
    apply Hend. reflexivity.
Defined.

(** ** Columns over the life of a table *)

Section ColumnInvariants.

Lemma fixed_fields_Forall2 (ds cs : list DataTableColumn) :
  fixed_fields <$> cs = fixed_fields <$> ds ->
  Forall2
    (fun d c => key c = key d /\ title c = title d /\
                wrap c = wrap d /\ align c = align d)
    ds cs.
Proof.
  revert cs. induction ds as [|d ds IH]; intros [|c cs] H; try discriminate.
  - constructor.
  - simpl in H. injection H as Hk Ht Hw Ha Hrest.
    constructor; [auto | now apply IH].
Qed.

Lemma existsb_wrap_fixed_fields (cs : list DataTableColumn) :
  existsb (fun col => truthy (wrap col)) cs =
  existsb (fun t => truthy (t.1.2)) (fixed_fields <$> cs).
Proof.
  induction cs as [|c cs IH]; simpl; [reflexivity | now rewrite IH].
Qed.

Lemma not_false_not_false (v : option bool) :
  not_false (Some (not_false v)) = not_false v.
Proof. destruct v as [[]|]; reflexivity. Qed.

End ColumnInvariants.

(** X19. In every state the table reaches, the columns are the default
    columns, as many and in the same order, with their key, title, wrap and
    align: only widths and visibility ever change. *)
Theorem columns_keep_fixed_fields {V : Type} `{!Stringify V} `{LC : !Lowercase}
    (props : Props) (m : Manager V) :
  reachable props m ->
  List.length (columns m) = List.length (defaultColumns props) /\
  Forall2
    (fun d c => key c = key d /\ title c = title d /\
                wrap c = wrap d /\ align c = align d)
    (defaultColumns props) (columns m).
Proof.
  intros Hreach. pose proof (reachable_fixed_fields props m Hreach) as Hff.
  split.
  - apply (f_equal (@List.length _)) in Hff. now rewrite !length_fmap in Hff.
  - now apply fixed_fields_Forall2.
Qed.

Lemma columns_keep_fixed_fields_witness :
  key <$> columns Sample.busy = ["name"; "age"] /\
  List.length (columns Sample.busy) = List.length (defaultColumns Sample.props).
Proof.
  split; [reflexivity|].
  apply (columns_keep_fixed_fields Sample.props Sample.busy).
  exact Sample_busy_reachable.
Defined.

(** X20. The row-height policy never changes: in every state the table
    reaches, [usesWrapping] is what the default columns say, so
    [useFixedRowHeight] is the same for the whole life of the table. *)
Theorem usesWrapping_is_fixed_by_defaults {V : Type} `{!Stringify V} `{LC : !Lowercase}
    (props : Props) (m : Manager V) :
  reachable props m ->
  usesWrapping m = existsb (fun col => truthy (wrap col)) (defaultColumns props) /\
  useFixedRowHeight m =
    negb (existsb (fun col => truthy (wrap col)) (defaultColumns props)).
Proof.
  intros Hreach. pose proof (reachable_fixed_fields props m Hreach) as Hff.
  assert (Hu : usesWrapping m =
               existsb (fun col => truthy (wrap col)) (defaultColumns props)).
  { unfold usesWrapping. rewrite !existsb_wrap_fixed_fields. now rewrite Hff. }
  split; [exact Hu|]. unfold useFixedRowHeight. now rewrite Hu.
Qed.

Lemma usesWrapping_is_fixed_by_defaults_witness :
  useFixedRowHeight Sample.busy = true.
Proof.
  destruct (usesWrapping_is_fixed_by_defaults Sample.props Sample.busy) as [_ H].
  - exact Sample_busy_reachable.
  - exact H.
Defined.

(** X21. Normalizing the columns twice is normalizing them once, and
    normalizing keeps their number: [computeInitialColumns] is
    idempotent. *)
Theorem computeInitialColumns_idempotent (cs : list DataTableColumn) :
  computeInitialColumns (computeInitialColumns cs) = computeInitialColumns cs /\
  List.length (computeInitialColumns cs) = List.length cs.
Proof.
  unfold computeInitialColumns. split; [|apply length_map].
  induction cs as [|c cs IH]; [reflexivity|]. cbn [map]. rewrite IH. f_equal.
  unfold set_visible. cbn [key title width wrap align visible].
  now rewrite not_false_not_false.
Qed.

(** ** Search: the filter over the life of a table *)

Section FilterSync.
Context {V : Type} `{!Stringify V} `{LC : !Lowercase}.
Implicit Types (m : Manager V) (props : Props) (ev : Event V).

Lemma handle_keeps_filter_matches props ev m m' :
  (forall P : Prop, ev = DoReset -> P) ->
  handle props ev m = Ok (tt, m') ->
  filter_matches_search m -> filter_matches_search m'.
Proof.
  unfold filter_matches_search, currentFilter. intros Hnr H Hm.
  destruct ev; simpl in H.
  - now apply Hnr.
  - apply update_column_inv in H as (i & col & _ & ->). exact Hm.
  - unfold sortColumn in H. unfold_monad. simpl in H.
    repeat case_decide; injection H as <-; exact Hm.
  - apply update_column_inv in H as (i & col & _ & ->). exact Hm.
  - unfold applyFilter in H. unfold_monad. simpl in H.
    case_decide; injection H as <-; simpl; [now subst text | reflexivity].
  - apply selectItem_inv in H as (n & _ & ->). exact Hm.
  - unfold bind in H. destruct (onKeyDown props e_key m) as [[h m1]|e] eqn:Hkd; [|discriminate].
    unfold ret in H. injection H as <-.
    apply onKeyDown_inv in Hkd as [-> | [n ->]]; exact Hm.
  - apply selectItem_inv in H as (n & _ & ->). exact Hm.
  - unfold_monad. injection H as <-. exact Hm.
  - unfold_monad. injection H as <-. exact Hm.
Qed.

Lemma handle_all_keeps_filter_matches props (evs : list (Event V)) m m' :
  DoReset ∉ evs ->
  handle_all props evs m = Ok (tt, m') ->
  filter_matches_search m -> filter_matches_search m'.
Proof.
  revert m. induction evs as [|ev evs IH]; intros m Hnr H Hm.
  - simpl in H. unfold ret in H. now injection H as <-.
  - apply handle_all_cons_inv in H as (m1 & H1 & H2).
    apply not_elem_of_cons in Hnr as [Hne Hnr].
    apply (IH m1 Hnr H2).
    eapply handle_keeps_filter_matches; [|exact H1|exact Hm].
    intros P ->. now destruct Hne.
Qed.

End FilterSync.

Section Substrings.

Lemma append_assoc (a b c : string) : (a ++ b) ++ c = a ++ b ++ c.
Proof.
  induction a as [|x a IH]; [reflexivity|].
  change (String x ((a ++ b) ++ c) = String x (a ++ b ++ c)). now rewrite IH.
Qed.

Lemma isSubstring_trans (t s u : string) :
  isSubstring t s -> isSubstring s u -> isSubstring t u.
Proof.
  intros (p & q & ->) (p' & q' & ->).
  exists (p' ++ p), (q ++ q'). now rewrite !append_assoc.
Qed.

End Substrings.

(** X22. As long as [reset] is not called, the data source filters by the
    predicate derived from the current search value, in every state the
    table reaches; in particular its filter is unset exactly when the
    search value is empty. *)
Theorem filter_follows_search_value {V : Type} `{!Stringify V} `{LC : !Lowercase}
    (props : Props) (ds : DataSource.t (gmap string V)) (virtualizer : option nat)
    (evs : list (Event V)) (m0 m : Manager V) :
  mount props ds virtualizer = Ok (tt, m0) ->
  handle_all props evs m0 = Ok (tt, m) ->
  DoReset ∉ evs ->
  DataSource.filterBy (dataSource m) = computeFilter (searchValue m) /\
  (DataSource.filterBy (dataSource m) = None <-> searchValue m = "").
Proof.
  intros Hm Hrun Hnr.
  assert (Hsync : filter_matches_search m).
  { apply (handle_all_keeps_filter_matches props evs m0 m Hnr Hrun).
    rewrite mount_run in Hm. injection Hm as <-. reflexivity. }
  unfold filter_matches_search, currentFilter in Hsync.
  split; [exact Hsync|]. rewrite Hsync. unfold computeFilter.
  case_decide; split; congruence.
Qed.

Lemma filter_follows_search_value_witness :
  handle_all Sample.props Sample.search_events
    (Sample.mounted [Sample.alice; Sample.bob] 5) = Ok (tt, Sample.searched) /\
  searchValue Sample.searched = "" /\
  DataSource.filterBy (dataSource Sample.searched) = None.
Proof.
  split; [reflexivity|]. split; [reflexivity|].
  assert (Hnr : DoReset ∉ Sample.search_events).
  { unfold Sample.search_events. rewrite !not_elem_of_cons.
    repeat split; try discriminate. apply not_elem_of_nil. }
  pose proof (filter_follows_search_value Sample.props
                (Sample.source [Sample.alice; Sample.bob]) (Some 5%nat)
                Sample.search_events
                (Sample.mounted [Sample.alice; Sample.bob] 5) Sample.searched
                eq_refl eq_refl Hnr) as [_ Hiff].
  apply Hiff. reflexivity.
Defined.

(** X23. [reset] leaves a search behind: with a search value that is not
    empty, [reset()] keeps the search value while the data source, once
    reset, no longer filters; and because the derived predicate did not
    change, the filter is not pushed again, also not when the same search
    value is set once more. *)
Theorem reset_drops_filter_keeps_search {V : Type} `{!Stringify V} `{LC : !Lowercase}
    (props : Props) (m : Manager V) :
  searchValue m <> "" ->
  exists m1 m2 f,
    reset props m = Ok (tt, m1) /\
    searchValue m1 = searchValue m /\
    currentFilter m1 = Some f /\
    DataSource.filterBy (dataSource m1) = None /\
    handle props (DoSetSearchValue (searchValue m)) m1 = Ok (tt, m2) /\
    DataSource.filterBy (dataSource m2) = None.
Proof.
  intros Hs. rewrite reset_run. eexists _, _, _.
  split; [reflexivity|]. split; [reflexivity|].
  split; [unfold currentFilter; simpl; apply (computeFilter_nonempty _ Hs)|].
  split; [reflexivity|].
  simpl. unfold_monad. simpl.
  rewrite decide_True by reflexivity. split; reflexivity.
Qed.

Lemma reset_drops_filter_keeps_search_witness :
  searchValue Sample.busy = "al" /\
  exists m1,
    reset Sample.props Sample.busy = Ok (tt, m1) /\
    searchValue m1 = "al" /\
    DataSource.filterBy (dataSource m1) = None.
Proof.
  split; [reflexivity|].
  destruct (reset_drops_filter_keeps_search Sample.props Sample.busy)
    as (m1 & m2 & f & Hrun & Hsearch & _ & Hfilter & _).
  - discriminate.
  - exists m1. split; [exact Hrun|]. split; [exact Hsearch | exact Hfilter].
Defined.

(** X24. A search contained in another accepts at least the same rows:
    if the lowercased [t] occurs in the lowercased [s], every row the
    filter for [s] accepts is accepted by the filter for [t]. *)
Theorem longer_search_accepts_fewer_rows {V : Type} `{!Stringify V} `{LC : !Lowercase}
    (s t : string) (f g : gmap string V -> bool) (row : gmap string V) :
  isSubstring (toLowerCase t) (toLowerCase s) ->
  computeFilter s = Some f -> computeFilter t = Some g ->
  f row = true -> g row = true.
Proof.
  intros Hts Hf Hg Hrow. unfold computeFilter in Hf, Hg.
  destruct (decide (s = "")); [discriminate|]. injection Hf as <-.
  destruct (decide (t = "")); [discriminate|]. injection Hg as <-.
  apply dataTableFilter_spec in Hrow as (k & v & Hk & Hv).
  apply dataTableFilter_spec. exists k, v. split; [exact Hk|].
  eapply isSubstring_trans; eauto.
Qed.

Lemma longer_search_accepts_fewer_rows_witness :
  computeFilter "aLi" = Some (dataTableFilter (V := string) "ali") /\
  computeFilter "LI" = Some (dataTableFilter (V := string) "li") /\
  dataTableFilter "ali" Sample.alice = true /\
  dataTableFilter "li" Sample.alice = true.
Proof.
  split; [reflexivity|]. split; [reflexivity|].
  assert (Hf : dataTableFilter "ali" Sample.alice = true)
    by (vm_compute; reflexivity).
  split; [exact Hf|].
  apply (longer_search_accepts_fewer_rows "aLi" "LI"
           (dataTableFilter "ali") (dataTableFilter "li") Sample.alice);
    [| reflexivity | reflexivity | exact Hf].
  exists "a", "". reflexivity.
Defined.
